(** * zkaster-stealth-sdk: a shallow embedding of [src/utils.ts] and [src/core.ts]

    The SDK is a thin layer of string handling, length checks and control
    flow on top of three external libraries: [@noble/curves] (secp256k1),
    [viem] (keccak256, hex codecs, accounts) and the platform random source.

    - JavaScript strings are modelled by [string]; an [ascii] stands for a
      UTF-16 code unit below 256 (all key material is ASCII hex).
    - A [Uint8Array] is a [list byte].
    - A thrown [Error] is a value of [JsError]; code that may throw returns
      [result].
    - The external libraries are the fields of the class [Lib]; what the
      proofs use about them is collected in [LibLaws]. *)

From Stdlib Require Import String Ascii List ZArith NArith Zpow_facts Lia Bool DecimalString.
From Stdlib Require Import Permutation.
From Stdlib Require Import Init.Byte Strings.Byte.
Import ListNotations.

Open Scope string_scope.

(* ================================================================== *)
(** ** Exceptions *)

Record JsError : Type := mkError { err_name : string; err_message : string }.

(** [new Error(msg)] *)
Definition Error (msg : string) : JsError := mkError "Error" msg.

Inductive result (A : Type) : Type :=
| Ok (a : A)
| Throw (e : JsError).
Arguments Ok {A} a.
Arguments Throw {A} e.

Definition bind {A B} (r : result A) (k : A -> result B) : result B :=
  match r with
  | Ok a => k a
  | Throw e => Throw e
  end.

Notation "'let*' x ':=' r 'in' k" := (bind r (fun x => k))
  (at level 10, x pattern, r at level 100, k at level 200).

(** [try { body } catch (error) { handler(error) }] *)
Definition try_catch {A} (body : result A) (handler : JsError -> result A) : result A :=
  match body with
  | Ok a => Ok a
  | Throw e => handler e
  end.

(** [error?.message || String(error)]: the message, or for an empty message
    what [Error.prototype.toString] prints, which is then the name alone. *)
Definition error_text (e : JsError) : string :=
  if String.eqb (err_message e) EmptyString then err_name e else err_message e.

(* ================================================================== *)
(** ** JavaScript string primitives used by the SDK *)

Module Js.

Definition code (c : ascii) : N := N_of_ascii c.

(** [s.startsWith(p)] *)
Definition startsWith (p s : string) : bool := prefix p s.

(** [s.slice(a, b)] for [0 <= a <= b], clamped at the end of [s]. *)
Definition slice (a b : nat) (s : string) : string := substring a (b - a) s.

(** [s.slice(a)] *)
Definition slice_from (a : nat) (s : string) : string :=
  substring a (String.length s - a) s.

(** [s.substr(i, n)] *)
Definition substr (i n : nat) (s : string) : string := substring i n s.

(** [`${n}`] for a length. *)
Definition show_nat (n : nat) : string := NilEmpty.string_of_uint (Nat.to_uint n).

(** [!s] for a string: only the empty string is falsy. *)
Definition falsy (s : string) : bool := String.eqb s EmptyString.

(** [!x] for a possibly missing string ([undefined] is [None]). *)
Definition missing (x : option string) : bool :=
  match x with
  | None => true
  | Some s => falsy s
  end.

(** [x || d] *)
Definition or_default (x : option string) (d : string) : string :=
  match x with
  | None => d
  | Some s => if falsy s then d else s
  end.

(** [toLowerCase] on one code unit below 256: A-Z, and the Latin-1
    capitals 0xC0-0xDE except the multiplication sign 0xD7. *)
Definition lower_char (c : ascii) : ascii :=
  let n := code c in
  if ((65 <=? n) && (n <=? 90))%N then ascii_of_N (n + 32)
  else if ((192 <=? n) && (n <=? 222) && negb (n =? 215))%N then ascii_of_N (n + 32)
  else c.

Fixpoint toLowerCase (s : string) : string :=
  match s with
  | EmptyString => EmptyString
  | String c r => String (lower_char c) (toLowerCase r)
  end.

(** [s.replace(/^0x/, '')]: a leading [0x] is removed. *)
Definition strip_0x (s : string) : string :=
  if startsWith "0x" s then slice_from 2 s else s.

(** White space skipped by [parseInt], restricted to code units below 256:
    TAB, LF, VT, FF, CR, SP and NBSP. *)
Definition is_space (c : ascii) : bool :=
  let n := code c in
  ((n =? 9) || (n =? 10) || (n =? 11) || (n =? 12) || (n =? 13) || (n =? 32) || (n =? 160))%N.

Fixpoint trim_start (s : string) : string :=
  match s with
  | String c r => if is_space c then trim_start r else s
  | EmptyString => EmptyString
  end.

(** Value of a radix-16 digit. *)
Definition digit16 (c : ascii) : option Z :=
  let n := code c in
  if ((48 <=? n) && (n <=? 57))%N then Some (Z.of_N n - 48)%Z
  else if ((97 <=? n) && (n <=? 102))%N then Some (Z.of_N n - 87)%Z
  else if ((65 <=? n) && (n <=? 70))%N then Some (Z.of_N n - 55)%Z
  else None.

(** Reads the longest prefix of radix-16 digits; [acc] is the value read
    so far, [seen] whether any digit was read. *)
Fixpoint read_digits (s : string) (acc : Z) (seen : bool) : option Z :=
  match s with
  | String c r =>
      match digit16 c with
      | Some d => read_digits r (16 * acc + d)%Z true
      | None => if seen then Some acc else None
      end
  | EmptyString => if seen then Some acc else None
  end.

(** [parseInt(s, 16)]; [None] is [NaN]. *)
Definition parseInt16 (s : string) : option Z :=
  let s1 := trim_start s in
  let '(sign, s2) :=
    match s1 with
    | String "-" r => ((-1)%Z, r)
    | String "+" r => (1%Z, r)
    | _ => (1%Z, s1)
    end in
  let s3 :=
    match s2 with
    | String "0" (String x r) =>
        if (Ascii.eqb x "x" || Ascii.eqb x "X")%bool then r else s2
    | _ => s2
    end in
  match read_digits s3 0%Z false with
  | Some v => Some (sign * v)%Z
  | None => None
  end.

(** Total conversion of a number below 256 to a byte. *)
Definition byte_of_N (n : N) : byte :=
  match Byte.of_N n with
  | Some b => b
  | None => x00
  end.

(** The conversion applied when a number is stored in a [Uint8Array]:
    [NaN] becomes 0, other integers are taken modulo 256. *)
Definition ToUint8 (v : option Z) : byte :=
  match v with
  | None => x00
  | Some z => byte_of_N (Z.to_N (z mod 256))
  end.

(** [bytes[i] = v] on a typed array: a write out of range is ignored. *)
Fixpoint array_set (bytes : list byte) (i : nat) (v : byte) : list byte :=
  match bytes, i with
  | [], _ => []
  | _ :: r, O => v :: r
  | b :: r, S i' => b :: array_set r i' v
  end.

(** The values of [i] in [for (let i = 0; i < n; i += 2)]. *)
Definition even_indices (n : nat) : list nat :=
  map (fun k => 2 * k) (seq 0 (Nat.div2 (n + 1))).

(** [n.toString(16)] *)
Definition hex_digit (n : N) : ascii :=
  if (n <? 10)%N then ascii_of_N (48 + n) else ascii_of_N (87 + n).

Definition toString16 (b : byte) : string :=
  let n := Byte.to_N b in
  if (n <? 16)%N then String (hex_digit n) EmptyString
  else String (hex_digit (n / 16)) (String (hex_digit (n mod 16)) EmptyString).

(** [s.padStart(2, "0")] *)
Definition padStart2 (s : string) : string :=
  match String.length s with
  | 0 => "00"
  | 1 => "0" ++ s
  | _ => s
  end.

(** [parts.join('')] *)
Fixpoint join (parts : list string) : string :=
  match parts with
  | [] => EmptyString
  | p :: r => p ++ join r
  end.

End Js.

(* ================================================================== *)
(** ** [src/utils.ts] *)

(** [hexToUint8Array]: strip an optional [0x], allocate [length / 2] zero
    bytes, then store [parseInt] of each two-character chunk. *)
Definition hexToUint8Array (hex : string) : list byte :=
  let hexStr := if Js.startsWith "0x" hex then Js.slice_from 2 hex else hex in
  let bytes := repeat x00 (String.length hexStr / 2) in
  fold_left
    (fun bytes i =>
       Js.array_set bytes (i / 2) (Js.ToUint8 (Js.parseInt16 (Js.substr i 2 hexStr))))
    (Js.even_indices (String.length hexStr))
    bytes.

(** [uint8ArrayToHex] *)
Definition uint8ArrayToHex (bytes : list byte) : string :=
  "0x" ++ Js.join (map (fun b => Js.padStart2 (Js.toString16 b)) bytes).

(* ================================================================== *)
(** ** [src/types.ts] *)

Module StealthKeys.
Record t : Type := make {
  spendingPrivateKey : string;
  viewingPrivateKey : string;
  spendingPublicKey : string;
  viewingPublicKey : string
}.
End StealthKeys.

Module StealthAddress.
Record t : Type := make {
  address : string;
  ephemeralPublicKey : string;
  viewTag : string
}.
End StealthAddress.

(** The three cryptographic fields are read from records supplied by the
    caller; a field that is absent at run time ([undefined]) is [None]. *)
Module StealthMetadata.
Record t : Type := make {
  stealthAddress : option string;
  ephemeralPublicKey : option string;
  viewTag : option string;
  network : string;
  createdAt : Z
}.
End StealthMetadata.

(* ================================================================== *)
(** ** The external libraries *)

(** What the SDK imports: the secp256k1 point operations of
    [@noble/curves], and [keccak256], [hexToBytes], [toHex],
    [privateKeyToAccount] and [generatePrivateKey] of [viem].  A function
    that can throw returns [result]. *)
Class Lib : Type := {
  (** curve points other than the point at infinity *)
  point : Type;
  (** the generator [Point.BASE] *)
  BASE : point;
  (** the group order [CURVE.n] *)
  CURVE_n : N;
  (** [P.multiply(k)], meaningful for [0 < k < CURVE_n] *)
  multiply : point -> N -> point;
  (** [Point.fromHex(bytes)]: decodes a 33- or 65-byte encoding *)
  fromHex : list byte -> result point;
  (** [P.toRawBytes(isCompressed)] *)
  toRawBytes : bool -> point -> list byte;
  (** the error thrown for a byte string that is not a private key *)
  invalid_private_key : list byte -> JsError;
  (** [keccak256(hex)] of viem, hex string in, hex string out *)
  keccak256 : string -> result string;
  (** [hexToBytes(hex)] of viem *)
  hexToBytes : string -> result (list byte);
  (** [toHex(bytes)] of viem *)
  toHex : list byte -> string;
  (** [privateKeyToAccount(key).address] *)
  privateKeyToAccount : string -> result string;
  (** the [i]-th value the random source makes [generatePrivateKey()] return *)
  random_private_key : nat -> string
}.

Section WithLib.

Context {L : Lib}.

(** The library's [bytesToNumberBE]. *)
Definition bytesToNumberBE (bytes : list byte) : N :=
  fold_left (fun acc b => (acc * 256 + Byte.to_N b)%N) bytes 0%N.

(** The library's decoding of a private key: 32 bytes, big endian, with
    [0 < key < CURVE.n]; anything else throws. *)
Definition normPrivateKeyToScalar (key : list byte) : result N :=
  if negb (Nat.eqb (List.length key) 32) then Throw (invalid_private_key key)
  else
    let num := bytesToNumberBE key in
    if ((0 <? num) && (num <? CURVE_n))%N then Ok num
    else Throw (invalid_private_key key).

(** [secp256k1.getPublicKey(privateKey, true)] *)
Definition getPublicKey (privateKey : list byte) : result (list byte) :=
  let* k := normPrivateKeyToScalar privateKey in
  Ok (toRawBytes true (multiply BASE k)).

(** [secp256k1.getSharedSecret(privateA, publicB, true)]: the product of
    the decoded point by the scalar, compressed.  The private key is
    decoded first, so with both arguments invalid the error is the one of
    the private key. *)
Definition getSharedSecret (privateA publicB : list byte) : result (list byte) :=
  let* k := normPrivateKeyToScalar privateA in
  let* b := fromHex publicB in
  Ok (toRawBytes true (multiply b k)).

(** [generatePrivateKey()], with the position in the random source as state. *)
Definition generatePrivateKey (st : nat) : string * nat :=
  (random_private_key st, S st).

(** [derivePublicKey] of [src/utils.ts] *)
Definition derivePublicKey (privateKey : string) : result string :=
  let privBytes := hexToUint8Array privateKey in
  let* pubKey := getPublicKey privBytes in
  Ok (uint8ArrayToHex pubKey).


(** ** [src/core.ts] *)

(** [k.startsWith("0x") ? k : `0x${k}`] *)
Definition with_0x (k : string) : string :=
  if Js.startsWith "0x" k then k else "0x" ++ k.

(** [computeECDH]: every error raised in the body, the length errors
    included, reaches the [catch] and is thrown again under one message. *)
Definition computeECDH (privateKey publicKey : string) : result string :=
  try_catch
    (if (Js.falsy privateKey || Js.falsy publicKey)%bool then
       Throw (Error "Missing private or public key")
     else
       let privKey := with_0x privateKey in
       let pubKey := with_0x publicKey in
       if negb (Nat.eqb (String.length privKey) 66) then
         Throw (Error ("Invalid private key length: "
                         ++ Js.show_nat (String.length privKey) ++ ", expected 66"))
       else
         let pubKeyHexLength := String.length pubKey - 2 in
         if (negb (Nat.eqb pubKeyHexLength 66) && negb (Nat.eqb pubKeyHexLength 130))%bool then
           Throw (Error ("Invalid public key length: "
                           ++ Js.show_nat (String.length pubKey) ++ ", expected 68 or 132"))
         else
           let privBytes := hexToUint8Array privKey in
           let pubBytes := hexToUint8Array pubKey in
           let* sharedPoint := getSharedSecret privBytes pubBytes in
           let* sharedSecret := keccak256 (uint8ArrayToHex sharedPoint) in
           Ok sharedSecret)
    (fun error => Throw (Error ("ECDH computation failed: " ++ error_text error))).

(** [generateStealthKeys] *)
Definition generateStealthKeys (st : nat) : result StealthKeys.t * nat :=
  let '(spendingPrivateKey, st) := generatePrivateKey st in
  let '(viewingPrivateKey, st) := generatePrivateKey st in
  (let* spendingPublicKey := derivePublicKey spendingPrivateKey in
   let* viewingPublicKey := derivePublicKey viewingPrivateKey in
   Ok (StealthKeys.make spendingPrivateKey viewingPrivateKey
         spendingPublicKey viewingPublicKey),
   st).

(** [generateStealthAddress] *)
Definition generateStealthAddress
    (viewingPublicKey : string) (spendingPublicKey ephemeralPrivateKey : option string)
    (st : nat) : result StealthAddress.t * nat :=
  let normalizedViewingPub := with_0x viewingPublicKey in
  let viewingPubHexLength := String.length normalizedViewingPub - 2 in
  if (negb (Nat.eqb viewingPubHexLength 66) && negb (Nat.eqb viewingPubHexLength 130))%bool then
    (Throw (Error "Invalid viewingPublicKey format"), st)
  else
    let '(ephemeralKey, st) :=
      if Js.missing ephemeralPrivateKey then generatePrivateKey st
      else (Js.or_default ephemeralPrivateKey EmptyString, st) in
    (let* ephemeralPublicKey := derivePublicKey ephemeralKey in
     let* sharedSecret := computeECDH ephemeralKey normalizedViewingPub in
     let* sharedSecretBytes := hexToBytes sharedSecret in
     let* viewingPubBytes := hexToBytes normalizedViewingPub in
     let combined := (sharedSecretBytes ++ viewingPubBytes)%list in
     let* stealthPrivateKey := keccak256 (toHex combined) in
     let* stealthAccount_address := privateKeyToAccount stealthPrivateKey in
     let viewTag := Js.toLowerCase (Js.slice 2 4 sharedSecret) in
     Ok (StealthAddress.make stealthAccount_address ephemeralPublicKey viewTag),
     st).

(** The body of the [try] block of [scanStealthAddresses] for one record:
    [Ok None] is [continue] or a failed final comparison, [Ok (Some a)] is
    [discovered.push(a)], [Throw] is an exception on its way to [catch]. *)
Definition scan_record (viewingPriv viewingPub : string) (meta : StealthMetadata.t)
  : result (option StealthAddress.t) :=
  if (Js.missing (StealthMetadata.stealthAddress meta)
      || Js.missing (StealthMetadata.ephemeralPublicKey meta)
      || Js.missing (StealthMetadata.viewTag meta))%bool then Ok None
  else
    let meta_stealthAddress := Js.or_default (StealthMetadata.stealthAddress meta) EmptyString in
    let meta_ephemeralPublicKey := Js.or_default (StealthMetadata.ephemeralPublicKey meta) EmptyString in
    let meta_viewTag := Js.or_default (StealthMetadata.viewTag meta) EmptyString in
    let ephemeralPub := with_0x meta_ephemeralPublicKey in
    let* sharedSecret := computeECDH viewingPriv ephemeralPub in
    let computedViewTag := Js.toLowerCase (Js.slice 2 4 sharedSecret) in
    let storedViewTag :=
      Js.strip_0x (Js.toLowerCase (Js.or_default (StealthMetadata.viewTag meta) EmptyString)) in
    if negb (String.eqb computedViewTag storedViewTag) then Ok None
    else
      let* sharedSecretBytes := hexToBytes sharedSecret in
      let* viewingPubBytes := hexToBytes viewingPub in
      let combined := (sharedSecretBytes ++ viewingPubBytes)%list in
      let* stealthPrivateKey := keccak256 (toHex combined) in
      let* stealthAccount_address := privateKeyToAccount stealthPrivateKey in
      if String.eqb (Js.toLowerCase stealthAccount_address)
                    (Js.toLowerCase meta_stealthAddress) then
        Ok (Some (StealthAddress.make meta_stealthAddress ephemeralPub meta_viewTag))
      else Ok None.

(** One iteration of the [for] loop: the [try] body, and a [catch] that
    only continues. *)
Definition scan_step (viewingPriv viewingPub : string)
    (discovered : list StealthAddress.t) (meta : StealthMetadata.t)
  : list StealthAddress.t :=
  match scan_record viewingPriv viewingPub meta with
  | Ok (Some found) => discovered ++ [found]
  | Ok None => discovered
  | Throw _ => discovered
  end.

(** [scanStealthAddresses] *)
Definition scanStealthAddresses
    (viewingPrivateKey viewingPublicKey : string) (stealthMetadata : list StealthMetadata.t)
  : result (list StealthAddress.t) :=
  let discovered := [] in
  if (Js.falsy viewingPrivateKey || Js.falsy viewingPublicKey)%bool then
    Throw (Error "Missing viewing keys")
  else
    let viewingPriv := with_0x viewingPrivateKey in
    let viewingPub := with_0x viewingPublicKey in
    Ok (fold_left (scan_step viewingPriv viewingPub) stealthMetadata discovered).

(** [deriveStealthSpendingKey] *)
Definition deriveStealthSpendingKey
    (spendingPrivateKey viewingPrivateKey stealthAddress ephemeralPublicKey : string)
    (viewingPublicKey : option string) : result string :=
  let* sharedSecret := computeECDH viewingPrivateKey ephemeralPublicKey in
  let* viewingPublicKey :=
    if Js.missing viewingPublicKey then derivePublicKey viewingPrivateKey
    else Ok (Js.or_default viewingPublicKey EmptyString) in
  let* sharedSecretBytes := hexToBytes sharedSecret in
  let* viewingPubBytes := hexToBytes viewingPublicKey in
  let combined := (sharedSecretBytes ++ viewingPubBytes)%list in
  let* stealthPrivateKey := keccak256 (toHex combined) in
  let* derivedAccount_address := privateKeyToAccount stealthPrivateKey in
  if negb (String.eqb (Js.toLowerCase derivedAccount_address)
                      (Js.toLowerCase stealthAddress)) then
    Throw (Error "Derived address mismatch!")
  else Ok stealthPrivateKey.

(** [createStealthMetadata]; [now] is the value of [Date.now()]. *)
Definition createStealthMetadata (stealthAddress : StealthAddress.t) (network : string)
    (now : Z) : StealthMetadata.t :=
  StealthMetadata.make
    (Some (StealthAddress.address stealthAddress))
    (Some (StealthAddress.ephemeralPublicKey stealthAddress))
    (Some (StealthAddress.viewTag stealthAddress))
    network now.

End WithLib.

(* ================================================================== *)
(** ** Encodings, library laws and error kinds *)

(** The bytes a hex string denotes, read two characters at a time; an odd
    last character is dropped. *)
Fixpoint decode_pairs (s : string) : list byte :=
  match s with
  | String a (String b r) =>
      Js.ToUint8 (Js.parseInt16 (String a (String b EmptyString))) :: decode_pairs r
  | _ => []
  end.

(** The two characters [uint8ArrayToHex] prints for one byte. *)
Definition hex2 (b : byte) : string := Js.padStart2 (Js.toString16 b).

Definition is_lower_hex_digit (c : ascii) : bool :=
  let n := Js.code c in
  (((48 <=? n) && (n <=? 57)) || ((97 <=? n) && (n <=? 102)))%N.

Definition is_hex_digit (c : ascii) : bool :=
  let n := Js.code c in
  (is_lower_hex_digit c || ((65 <=? n) && (n <=? 70)))%N.

Fixpoint all_chars (p : ascii -> bool) (s : string) : bool :=
  match s with
  | EmptyString => true
  | String c r => p c && all_chars p r
  end.

(** Lowercase hex with a [0x] prefix. *)
Definition canonical_hex (s : string) : bool :=
  Js.startsWith "0x" s && all_chars is_lower_hex_digit (Js.slice_from 2 s).

(** Lowercase hex with a [0x] prefix, encoding [n] bytes. *)
Definition canonical_hex_bytes (n : nat) (s : string) : bool :=
  canonical_hex s && Nat.eqb (String.length s) (2 + 2 * n).

(** A 20-byte account address: [0x] and 40 hex digits of either case. *)
Definition is_address (s : string) : bool :=
  Js.startsWith "0x" s && all_chars is_hex_digit (Js.slice_from 2 s)
  && Nat.eqb (String.length s) 42.

(** What the proofs assume of the libraries: scalar multiplication on the
    generator commutes, point encodings decode to the point they encode and
    have the lengths 33 and 65, [keccak256] accepts canonical hex and
    returns 32 bytes of canonical hex, account addresses are 20 bytes of
    hex, and generated private keys are 32 bytes of canonical hex. *)
Record LibLaws (L : Lib) : Prop := {
  multiply_comm : forall a b : N,
    (0 < a < CURVE_n)%N -> (0 < b < CURVE_n)%N ->
    multiply (multiply BASE a) b = multiply (multiply BASE b) a;
  fromHex_toRawBytes : forall (c : bool) (P : point),
    fromHex (toRawBytes c P) = Ok P;
  toRawBytes_length : forall (c : bool) (P : point),
    List.length (toRawBytes c P) = if c then 33 else 65;
  keccak256_total : forall s : string,
    canonical_hex s = true -> exists h, keccak256 s = Ok h;
  keccak256_shape : forall s h : string,
    keccak256 s = Ok h -> canonical_hex_bytes 32 h = true;
  address_shape : forall k a : string,
    privateKeyToAccount k = Ok a -> is_address a = true;
  random_private_key_shape : forall i : nat,
    canonical_hex_bytes 32 (random_private_key i) = true
}.
Arguments multiply_comm {L} _.
Arguments fromHex_toRawBytes {L} _.
Arguments toRawBytes_length {L} _.
Arguments keccak256_total {L} _.
Arguments keccak256_shape {L} _.
Arguments address_shape {L} _.
Arguments random_private_key_shape {L} _.

(** The error taxonomy of the design, read off the messages the code throws. *)
Inductive ErrorKind : Type :=
| InvalidKeyLength
| InvalidPublicKeyFormat
| MissingViewingKeys
| SharedSecretComputationFailed
| DerivedAddressMismatch.

Definition error_kind (e : JsError) : option ErrorKind :=
  let m := err_message e in
  if (prefix "Invalid private key length" m || prefix "Invalid public key length" m)%bool
  then Some InvalidKeyLength
  else if prefix "Invalid viewingPublicKey format" m then Some InvalidPublicKeyFormat
  else if prefix "Missing viewing keys" m then Some MissingViewingKeys
  else if prefix "ECDH computation failed" m then Some SharedSecretComputationFailed
  else if prefix "Derived address mismatch" m then Some DerivedAddressMismatch
  else None.

(** The derivation that [generateStealthAddress], [scanStealthAddresses] and
    [deriveStealthSpendingKey] each spell out: the one-time private key
    [keccak256(sharedSecret || viewingPub)] and the address of its account. *)
Definition stealth_account {L : Lib} (sharedSecret viewingPub : string)
  : result (string * string) :=
  let* sharedSecretBytes := hexToBytes sharedSecret in
  let* viewingPubBytes := hexToBytes viewingPub in
  let combined := (sharedSecretBytes ++ viewingPubBytes)%list in
  let* stealthPrivateKey := keccak256 (toHex combined) in
  let* address := privateKeyToAccount stealthPrivateKey in
  Ok (stealthPrivateKey, address).

(** What the scanner does with one record once the exception handler is
    taken into account: at most one discovered address. *)
Definition scan_one {L : Lib} (viewingPriv viewingPub : string) (meta : StealthMetadata.t)
  : list StealthAddress.t :=
  match scan_record viewingPriv viewingPub meta with
  | Ok (Some found) => [found]
  | _ => []
  end.

(** The handler of [computeECDH]. *)
Definition ecdh_failed (error : JsError) : result string :=
  Throw (Error ("ECDH computation failed: " ++ error_text error)).

(** [computeECDH] on the encoding of a point [P], compressed or not: the
    checks on the private key, then the hash of the compressed product. *)
Definition ecdh_on_point {L : Lib} (privateKey : string) (P : point) : result string :=
  try_catch
    (if Js.falsy privateKey then Throw (Error "Missing private or public key")
     else if negb (Nat.eqb (String.length (with_0x privateKey)) 66) then
       Throw (Error ("Invalid private key length: "
                       ++ Js.show_nat (String.length (with_0x privateKey))
                       ++ ", expected 66"))
     else
       let* k := normPrivateKeyToScalar (hexToUint8Array privateKey) in
       let* sharedSecret := keccak256 (uint8ArrayToHex (toRawBytes true (multiply P k))) in
       Ok sharedSecret)
    ecdh_failed.

(* ================================================================== *)
(** ** The validators of [src/utils.ts] and the demo script *)

(** [/^[a-fA-F0-9]{n}$/] on [s]: exactly [n] hex digits, then the end. *)
Fixpoint hex_run (n : nat) (s : string) : bool :=
  match n, s with
  | O, EmptyString => true
  | S n', String c r => is_hex_digit c && hex_run n' r
  | _, _ => false
  end.

(** [isValidStealthAddress]: [/^0x[a-fA-F0-9]{40}$/.test(address)] *)
Definition isValidStealthAddress (address : string) : bool :=
  match address with
  | String "0" (String "x" r) => hex_run 40 r
  | _ => false
  end.

(** [isValidPublicKey] *)
Definition isValidPublicKey (publicKey : string) : bool :=
  let hexStr :=
    if Js.startsWith "0x" publicKey then Js.slice_from 2 publicKey else publicKey in
  hex_run 66 hexStr.

(** What the demo script does to the console: a line of [console.log], a
    line of [console.error], or the error [runDemo().catch(console.error)]
    receives when a call throws. *)
Inductive console_event : Type :=
| Log (line : string)
| LogError (line : string)
| Rejected (e : JsError).

(** [console.log(label, value)] for two strings. *)
Definition log2 (label value : string) : console_event :=
  Log (label ++ " " ++ value).

(** [runDemo] of the demo script; [now] is the value of [Date.now()], the
    state is the position in the random source. *)
Definition runDemo {L : Lib} (now : Z) (st : nat) : list console_event * nat :=
  let out :=
    [Log ("=== Stealth SDK Demo ===" ++ String (ascii_of_nat 10) EmptyString);
     Log "1. Alice generates stealth keys..."] in
  match generateStealthKeys st with
  | (Throw e, st) => ((out ++ [Rejected e])%list, st)
  | (Ok aliceKeys, st) =>
    let out :=
      (out ++ [log2 "Alice's Viewing Public Key:" (StealthKeys.viewingPublicKey aliceKeys);
               log2 "Alice's Spending Public Key:" (StealthKeys.spendingPublicKey aliceKeys);
               Log EmptyString;
               Log "2. Bob generates stealth address for Alice..."])%list in
    match generateStealthAddress (StealthKeys.viewingPublicKey aliceKeys)
            (Some (StealthKeys.spendingPublicKey aliceKeys)) None st with
    | (Throw e, st) => ((out ++ [Rejected e])%list, st)
    | (Ok stealthInfo, st) =>
      let out :=
        (out ++ [log2 "Stealth Address:" (StealthAddress.address stealthInfo);
                 log2 "Ephemeral Public Key:" (StealthAddress.ephemeralPublicKey stealthInfo);
                 log2 "View Tag:" (StealthAddress.viewTag stealthInfo);
                 Log EmptyString])%list in
      let metadata := createStealthMetadata stealthInfo "eth" now in
      let allMetadata := [metadata] in
      let out := (out ++ [Log "3. Alice scans for her addresses..."])%list in
      match scanStealthAddresses (StealthKeys.viewingPrivateKey aliceKeys)
              (StealthKeys.viewingPublicKey aliceKeys) allMetadata with
      | Throw e => ((out ++ [Rejected e])%list, st)
      | Ok discovered =>
        let out :=
          (out ++ [Log ("Found " ++ Js.show_nat (List.length discovered)
                          ++ " address(es)!")])%list in
        match discovered with
        | first :: _ =>
          let out :=
            (out ++ [log2 "Discovered Address:" (StealthAddress.address first);
                     Log "4. Alice derives spending key..."])%list in
          match deriveStealthSpendingKey
                  (StealthKeys.spendingPrivateKey aliceKeys)
                  (StealthKeys.viewingPrivateKey aliceKeys)
                  (StealthAddress.address first)
                  (StealthAddress.ephemeralPublicKey first)
                  (Some (StealthKeys.viewingPublicKey aliceKeys)) with
          | Throw e => ((out ++ [Rejected e])%list, st)
          | Ok spendingKey =>
            ((out ++ [log2 "Derived Spending Key:" spendingKey;
                      Log "Success! Alice can now spend funds from this address."])%list,
             st)
          end
        | [] => ((out ++ [LogError "Failed to discover address!"])%list, st)
        end
      end
    end
  end.

(** What the scanner pushes for a record it accepts: the stored address and
    view tag, and the stored ephemeral key with its [0x]. *)
Definition echoed (meta : StealthMetadata.t) : StealthAddress.t :=
  StealthAddress.make
    (Js.or_default (StealthMetadata.stealthAddress meta) EmptyString)
    (with_0x (Js.or_default (StealthMetadata.ephemeralPublicKey meta) EmptyString))
    (Js.or_default (StealthMetadata.viewTag meta) EmptyString).

(** Whether the loop body reaches [discovered.push] for a record. *)
Definition discovers {L : Lib} (viewingPriv viewingPub : string)
    (meta : StealthMetadata.t) : bool :=
  match scan_record viewingPriv viewingPub meta with
  | Ok (Some _) => true
  | _ => false
  end.

(** A character that cannot start a number for [parseInt(_, 16)]: not a hex
    digit, not white space, not a sign. *)
Definition not_numeric (c : ascii) : bool :=
  match Js.digit16 c with
  | Some _ => false
  | None => negb (Js.is_space c) && negb (Ascii.eqb c "+") && negb (Ascii.eqb c "-")
  end.

(* ================================================================== *)
(** ** An executable instance of the library interface

    A small Diffie-Hellman group stands in for secp256k1 so that the SDK
    functions can be run: the multiplicative group of the integers modulo
    257, of order 256, generated by 3.  The element [e] is stored as the
    byte [e - 1]; "scalar multiplication" is exponentiation.  The hash is
    a 32-bit mixing function. *)
Module Model.

Definition p : Z := 257.
Definition elt (P : byte) : Z := Z.of_N (Byte.to_N P) + 1.
Definition of_elt (e : Z) : byte := Js.byte_of_N (Z.to_N (e - 1)).

Definition power (P : byte) (k : N) : byte :=
  of_elt ((elt P ^ Z.of_N k) mod p).

Definition zeros (bytes : list byte) : bool :=
  forallb (fun b => Byte.eqb b x00) bytes.

Definition encode (isCompressed : bool) (P : byte) : list byte :=
  if isCompressed then x02 :: repeat x00 31 ++ [P]
  else x04 :: repeat x00 31 ++ [P] ++ repeat x00 32.

Definition decode (bytes : list byte) : result byte :=
  match bytes with
  | h :: r =>
      if (Byte.eqb h x02 && Nat.eqb (List.length r) 32 && zeros (firstn 31 r))%bool
      then Ok (nth 31 r x00)
      else if (Byte.eqb h x04 && Nat.eqb (List.length r) 64
               && zeros (firstn 31 r) && zeros (skipn 32 r))%bool
      then Ok (nth 31 r x00)
      else Throw (Error "bad point")
  | [] => Throw (Error "bad point")
  end.

(** A 32-bit digest of the input bytes (FNV-1a), stretched to 32 bytes by
    a linear congruential generator. *)
Definition fnv1a (bytes : list byte) : N :=
  fold_left (fun acc b => (N.lxor acc (Byte.to_N b) * 16777619) mod 4294967296)%N
    bytes 2166136261%N.

Definition lcg (s : N) : N := ((s * 1664525 + 1013904223) mod 4294967296)%N.

Definition mix (bytes : list byte) (i : nat) : byte :=
  Js.byte_of_N ((Nat.iter (S i) lcg (fnv1a bytes) / 65536) mod 256)%N.

Definition hash32 (bytes : list byte) : list byte :=
  map (mix bytes) (seq 0 32).

Definition digest (hex : string) : result string :=
  Ok (uint8ArrayToHex (hash32 (hexToUint8Array hex))).

Definition upper_char (c : ascii) : ascii :=
  let n := Js.code c in
  if ((97 <=? n) && (n <=? 102))%N then ascii_of_N (n - 32) else c.

Fixpoint upper (s : string) : string :=
  match s with
  | EmptyString => EmptyString
  | String c r => String (upper_char c) (upper r)
  end.

(** An address with its hex letters in capitals, as a checksummed
    address has some of them. *)
Definition account_address (key : string) : result string :=
  Ok ("0x" ++ upper (Js.slice_from 2
                       (uint8ArrayToHex (firstn 20 (hash32 (hexToUint8Array key)))))).

Definition nth_private_key (i : nat) : string :=
  uint8ArrayToHex (repeat x00 31 ++ [Js.byte_of_N (N.of_nat (7 * i + 3) mod 255 + 1)]).

#[export] Instance lib : Lib := {|
  point := byte;
  BASE := x02;
  CURVE_n := 256;
  multiply := power;
  fromHex := decode;
  toRawBytes := encode;
  invalid_private_key := fun _ => Error "invalid private key";
  keccak256 := digest;
  hexToBytes := fun hex => Ok (hexToUint8Array hex);
  toHex := uint8ArrayToHex;
  privateKeyToAccount := account_address;
  random_private_key := nth_private_key
|}.

(** Values of a run: a receiver's keys, a payment to her, a payment to
    somebody else, and records as an indexer could store them. *)
Definition alice : StealthKeys.t :=
  StealthKeys.make
    "0x0000000000000000000000000000000000000000000000000000000000000004"
    "0x000000000000000000000000000000000000000000000000000000000000000b"
    "0x020000000000000000000000000000000000000000000000000000000000000050"
    "0x020000000000000000000000000000000000000000000000000000000000000049".

Definition bob : StealthKeys.t :=
  StealthKeys.make
    "0x0000000000000000000000000000000000000000000000000000000000000019"
    "0x0000000000000000000000000000000000000000000000000000000000000020"
    "0x02000000000000000000000000000000000000000000000000000000000000004c"
    "0x02000000000000000000000000000000000000000000000000000000000000003f".

Definition payment : StealthAddress.t :=
  StealthAddress.make
    "0x135F3B4473CA5C66EDC815D1EDE4A59C9034F81D"
    "0x0200000000000000000000000000000000000000000000000000000000000000b8"
    "87".

Definition payment_to_bob : StealthAddress.t :=
  StealthAddress.make
    "0x5E17C71CC8FD72F69E7CD82B66D02C9D710AD1F9"
    "0x02000000000000000000000000000000000000000000000000000000000000009f"
    "fa".

(** The secret alice and the sender of [payment] share, and the one-time
    key of the payment. *)
Definition payment_secret : string :=
  "0x87f44891b822ea7464f96818c03d50530b90f7b65f386feac41ebc5b87184819".

Definition payment_key : string :=
  "0x32abd069abc3eb1ec806a5c57f51c0557f60a28192da54ec44abcc9fc6986dbe".

(** A record without [ephemeralPublicKey]. *)
Definition record_without_key : StealthMetadata.t :=
  StealthMetadata.make
    (Some "0x135F3B4473CA5C66EDC815D1EDE4A59C9034F81D") None (Some "87") "eth" 0.

(** The record of [payment] as stored by an indexer that capitalises the
    prefixes, lowercases the address and drops the prefix of the key. *)
Definition record_recased : StealthMetadata.t :=
  StealthMetadata.make
    (Some "0X135f3b4473ca5c66edc815d1ede4a59c9034f81d")
    (Some "0200000000000000000000000000000000000000000000000000000000000000b8")
    (Some "0X87") "eth" 0.

(** A record with the view tag and ephemeral key of [payment] but another
    address. *)
Definition record_wrong_address : StealthMetadata.t :=
  StealthMetadata.make
    (Some "0x0000000000000000000000000000000000000000")
    (Some "0x0200000000000000000000000000000000000000000000000000000000000000b8")
    (Some "87") "eth" 0.

(** A record whose ephemeral key is 33 bytes that encode no point. *)
Definition record_bad_point : StealthMetadata.t :=
  StealthMetadata.make
    (Some "0x135F3B4473CA5C66EDC815D1EDE4A59C9034F81D")
    (Some "0x0500000000000000000000000000000000000000000000000000000000000000b8")
    (Some "87") "eth" 0.

End Model.

(* ================================================================== *)
(** * Properties of the hex codec of [src/utils.ts] *)

Section StringFacts.

Lemma length_append (s t : string) :
  String.length (s ++ t) = String.length s + String.length t.
Proof. induction s as [|c s IH]; simpl; [reflexivity | now rewrite IH]. Qed.

Lemma substring_all (s : string) : substring 0 (String.length s) s = s.
Proof. induction s as [|c s IH]; simpl; [reflexivity | now rewrite IH]. Qed.

Lemma slice_from_0x (s : string) : Js.slice_from 2 ("0x" ++ s) = s.
Proof. unfold Js.slice_from. simpl. rewrite Nat.sub_0_r. apply substring_all. Qed.

Lemma startsWith_0x (s : string) : Js.startsWith "0x" ("0x" ++ s) = true.
Proof. destruct s; reflexivity. Qed.

Lemma with_0x_prefixed (s : string) : with_0x ("0x" ++ s) = "0x" ++ s.
Proof. unfold with_0x. now rewrite startsWith_0x. Qed.

Lemma with_0x_startsWith (s : string) : Js.startsWith "0x" (with_0x s) = true.
Proof.
  unfold with_0x. destruct (Js.startsWith "0x" s) eqn:E; [exact E | apply startsWith_0x].
Qed.

Lemma with_0x_idem (s : string) : with_0x (with_0x s) = with_0x s.
Proof. unfold with_0x at 1. now rewrite with_0x_startsWith. Qed.

End StringFacts.

Section Codec.

Lemma string_pair_ind (P : string -> Prop) :
  P EmptyString ->
  (forall a, P (String a EmptyString)) ->
  (forall a b r, P r -> P (String a (String b r))) ->
  forall s, P s.
Proof.
  intros H0 H1 H2.
  fix IH 1. intros [|a [|b r]]; [exact H0 | apply H1 | apply H2, IH].
Qed.

Lemma decode_pairs_length (s : string) :
  List.length (decode_pairs s) = String.length s / 2.
Proof.
  induction s as [| a | a b r IH] using string_pair_ind; try reflexivity.
  cbn [decode_pairs List.length String.length]. rewrite IH.
  change (S (S (String.length r))) with (1 * 2 + String.length r).
  rewrite Nat.div_add_l by discriminate. reflexivity.
Qed.

Lemma decode_pairs_nth (k : nat) : forall s,
  k < String.length s / 2 ->
  nth k (decode_pairs s) x00
  = Js.ToUint8 (Js.parseInt16 (Js.substr (2 * k) 2 s)).
Proof.
  unfold Js.substr.
  induction k as [|k IH]; intros [|a [|b r]] Hk;
    try (exfalso; revert Hk; clear; cbn; lia).
  - destruct r; reflexivity.
  - replace (2 * S k) with (S (S (2 * k))) by lia.
    cbn [decode_pairs nth substring]. apply IH.
    cbn [String.length] in Hk.
    change (S (S (String.length r))) with (1 * 2 + String.length r) in Hk.
    rewrite Nat.div_add_l in Hk by discriminate. lia.
Qed.

Lemma array_set_length (bytes : list byte) (i : nat) (v : byte) :
  List.length (Js.array_set bytes i v) = List.length bytes.
Proof.
  revert i; induction bytes as [|b r IH]; intros [|i]; simpl; auto.
Qed.

Lemma array_set_out_of_range (bytes : list byte) (i : nat) (v : byte) :
  List.length bytes <= i -> Js.array_set bytes i v = bytes.
Proof.
  revert i; induction bytes as [|b r IH]; intros [|i] H; simpl in *; try reflexivity; try lia.
  f_equal. apply IH. lia.
Qed.

Lemma array_set_middle (pre : list byte) (old v : byte) (post : list byte) :
  Js.array_set (pre ++ old :: post) (List.length pre) v = (pre ++ v :: post)%list.
Proof. induction pre as [|b r IH]; simpl; [reflexivity | now rewrite IH]. Qed.

Lemma firstn_snoc_nth (l : list byte) (k : nat) :
  k < List.length l -> firstn (S k) l = (firstn k l ++ [nth k l x00])%list.
Proof.
  revert k; induction l as [|b r IH]; intros [|k] H; simpl in *; try lia; try reflexivity.
  f_equal. apply IH. lia.
Qed.

(** The store loop of [hexToUint8Array], started on [n] zero bytes, after
    its first [k] iterations. *)
Lemma store_loop_prefix (hexStr : string) (k : nat) :
  let n := String.length hexStr / 2 in
  k <= n ->
  fold_left
    (fun bytes i =>
       Js.array_set bytes (i / 2) (Js.ToUint8 (Js.parseInt16 (Js.substr i 2 hexStr))))
    (map (fun j => 2 * j) (seq 0 k))
    (repeat x00 n)
  = (firstn k (decode_pairs hexStr) ++ repeat x00 (n - k))%list.
Proof.
  intros n. induction k as [|k IH]; intros Hk.
  - simpl. now rewrite Nat.sub_0_r.
  - rewrite seq_S, map_app, fold_left_app, IH by lia.
    cbn [map fold_left Nat.add].
    rewrite <- decode_pairs_nth by (fold n; lia).
    rewrite (Nat.mul_comm 2 k), Nat.div_mul by discriminate.
    assert (Hlen : List.length (firstn k (decode_pairs hexStr)) = k).
    { rewrite length_firstn, decode_pairs_length. fold n. lia. }
    replace (n - k) with (S (n - S k)) by lia. cbn [repeat].
    pose proof (array_set_middle (firstn k (decode_pairs hexStr)) x00
                  (nth k (decode_pairs hexStr) x00) (repeat x00 (n - S k))) as Hset.
    rewrite Hlen in Hset. rewrite Hset.
    rewrite firstn_snoc_nth by (rewrite decode_pairs_length; fold n; lia).
    now rewrite <- app_assoc.
Qed.

Lemma store_loop (hexStr : string) :
  fold_left
    (fun bytes i =>
       Js.array_set bytes (i / 2) (Js.ToUint8 (Js.parseInt16 (Js.substr i 2 hexStr))))
    (Js.even_indices (String.length hexStr))
    (repeat x00 (String.length hexStr / 2))
  = decode_pairs hexStr.
Proof.
  pose proof (decode_pairs_length hexStr) as Hlen.
  pose proof (@store_loop_prefix hexStr (String.length hexStr / 2) (le_n _)) as Hp.
  rewrite Nat.sub_diag, app_nil_r, firstn_all2 in Hp by lia.
  unfold Js.even_indices.
  destruct (Nat.Even_or_Odd (String.length hexStr)) as [[m Hm] | [m Hm]].
  - replace (Nat.div2 (String.length hexStr + 1)) with (String.length hexStr / 2);
      [exact Hp |].
    rewrite Hm. replace (2 * m + 1) with (S (2 * m)) by lia.
    rewrite Nat.div2_succ_double, Nat.mul_comm, Nat.div_mul; [reflexivity | discriminate].
  - assert (Hn : String.length hexStr / 2 = m).
    { rewrite Hm. replace (2 * m + 1) with (1 + m * 2) by lia.
      rewrite Nat.div_add by discriminate. reflexivity. }
    replace (Nat.div2 (String.length hexStr + 1)) with (S (String.length hexStr / 2)).
    + rewrite seq_S, map_app, fold_left_app, Hp.
      cbn [map fold_left Nat.add]. apply array_set_out_of_range.
      rewrite (Nat.mul_comm 2), Nat.div_mul by discriminate. lia.
    + rewrite Hn, Hm. replace (2 * m + 1 + 1) with (2 * (S m)) by lia.
      now rewrite Nat.div2_double.
Qed.

(** [hexToUint8Array] ignores an optional [0x] and decodes the rest pairwise. *)
Lemma hexToUint8Array_decode (hex : string) :
  hexToUint8Array hex
  = decode_pairs (if Js.startsWith "0x" hex then Js.slice_from 2 hex else hex).
Proof. unfold hexToUint8Array. apply store_loop. Qed.

Lemma hexToUint8Array_length (hex : string) :
  List.length (hexToUint8Array hex)
  = String.length (if Js.startsWith "0x" hex then Js.slice_from 2 hex else hex) / 2.
Proof. rewrite hexToUint8Array_decode. apply decode_pairs_length. Qed.

(** A few runs: a prefixed string, an unprefixed string of odd length whose
    last character is dropped, and chunks that [parseInt] reads as [NaN],
    as a negative number or after a blank. *)
Example hexToUint8Array_ex1 : hexToUint8Array "0x01ff" = [x01; xff].
Proof. reflexivity. Qed.

Example hexToUint8Array_ex2 : hexToUint8Array "01fFa" = [x01; xff].
Proof. reflexivity. Qed.

Example hexToUint8Array_ex3 : hexToUint8Array "0xzz-1 70x" = [x00; xff; x07; x00].
Proof. reflexivity. Qed.

Example uint8ArrayToHex_ex1 : uint8ArrayToHex [x01; xff; x0a] = "0x01ff0a".
Proof. reflexivity. Qed.

Example parseInt16_ex1 :
  map Js.parseInt16 ["ff"; "1g"; "g1"; " 7"; "-1"; "0x"; "+a"; "- 1"; EmptyString]
  = [Some 255%Z; Some 1%Z; None; Some 7%Z; Some (-1)%Z; None; Some 10%Z; None; None].
Proof. reflexivity. Qed.

End Codec.

Section CodecRoundTrip.

Lemma hex2_decode (b : byte) (r : string) :
  decode_pairs (hex2 b ++ r) = b :: decode_pairs r.
Proof. destruct b; reflexivity. Qed.

Lemma hex2_length (b : byte) : String.length (hex2 b) = 2.
Proof. destruct b; reflexivity. Qed.

Lemma hex2_lower (b : byte) : all_chars is_lower_hex_digit (hex2 b) = true.
Proof. destruct b; reflexivity. Qed.

Lemma all_chars_append (p : ascii -> bool) (s t : string) :
  all_chars p (s ++ t) = all_chars p s && all_chars p t.
Proof.
  induction s as [|c s IH]; simpl; [reflexivity | now rewrite IH, andb_assoc].
Qed.

Lemma join_hex2_decode (bytes : list byte) :
  decode_pairs (Js.join (map hex2 bytes)) = bytes.
Proof.
  induction bytes as [|b r IH]; [reflexivity |].
  cbn [map Js.join]. now rewrite hex2_decode, IH.
Qed.

Lemma join_hex2_length (bytes : list byte) :
  String.length (Js.join (map hex2 bytes)) = 2 * List.length bytes.
Proof.
  induction bytes as [|b r IH]; [reflexivity |].
  cbn [map Js.join List.length]. rewrite length_append, hex2_length, IH. lia.
Qed.

Lemma join_hex2_lower (bytes : list byte) :
  all_chars is_lower_hex_digit (Js.join (map hex2 bytes)) = true.
Proof.
  induction bytes as [|b r IH]; [reflexivity |].
  cbn [map Js.join]. now rewrite all_chars_append, hex2_lower, IH.
Qed.

Lemma uint8ArrayToHex_unfold (bytes : list byte) :
  uint8ArrayToHex bytes = "0x" ++ Js.join (map hex2 bytes).
Proof. reflexivity. Qed.

(** Decoding what [uint8ArrayToHex] printed gives the bytes back. *)
Lemma hexToUint8Array_uint8ArrayToHex (bytes : list byte) :
  hexToUint8Array (uint8ArrayToHex bytes) = bytes.
Proof.
  rewrite hexToUint8Array_decode, uint8ArrayToHex_unfold.
  rewrite startsWith_0x, slice_from_0x. apply join_hex2_decode.
Qed.

Lemma uint8ArrayToHex_length (bytes : list byte) :
  String.length (uint8ArrayToHex bytes) = 2 + 2 * List.length bytes.
Proof.
  rewrite uint8ArrayToHex_unfold, length_append, join_hex2_length. reflexivity.
Qed.

Lemma uint8ArrayToHex_startsWith (bytes : list byte) :
  Js.startsWith "0x" (uint8ArrayToHex bytes) = true.
Proof. rewrite uint8ArrayToHex_unfold. apply startsWith_0x. Qed.

Lemma uint8ArrayToHex_with_0x (bytes : list byte) :
  with_0x (uint8ArrayToHex bytes) = uint8ArrayToHex bytes.
Proof. unfold with_0x. now rewrite uint8ArrayToHex_startsWith. Qed.

Lemma uint8ArrayToHex_canonical (bytes : list byte) :
  canonical_hex (uint8ArrayToHex bytes) = true.
Proof.
  unfold canonical_hex. rewrite uint8ArrayToHex_startsWith.
  rewrite uint8ArrayToHex_unfold, slice_from_0x. apply join_hex2_lower.
Qed.

Lemma uint8ArrayToHex_canonical_bytes (bytes : list byte) :
  canonical_hex_bytes (List.length bytes) (uint8ArrayToHex bytes) = true.
Proof.
  unfold canonical_hex_bytes.
  rewrite uint8ArrayToHex_canonical, uint8ArrayToHex_length. apply Nat.eqb_refl.
Qed.

(** Adding the [0x] prefix does not change the bytes read. *)
Lemma hexToUint8Array_with_0x (s : string) :
  hexToUint8Array (with_0x s) = hexToUint8Array s.
Proof.
  unfold with_0x. destruct (Js.startsWith "0x" s) eqn:E; [reflexivity |].
  rewrite !hexToUint8Array_decode, startsWith_0x, slice_from_0x, E. reflexivity.
Qed.

Lemma falsy_false_of_startsWith (s : string) :
  Js.startsWith "0x" s = true -> Js.falsy s = false.
Proof. destruct s; [discriminate | reflexivity]. Qed.

End CodecRoundTrip.

(* ================================================================== *)
(** * The executable instance satisfies the library laws *)

Section ModelLaws.

Lemma Ok_inj (A : Type) (x y : A) : Ok x = Ok y -> x = y.
Proof. intros H. now injection H. Qed.

Lemma byte_of_N_to_N (n : N) : (n < 256)%N -> Byte.to_N (Js.byte_of_N n) = n.
Proof.
  intros Hn. unfold Js.byte_of_N.
  destruct (Byte.of_N n) as [b|] eqn:E.
  - now apply Byte.to_of_N.
  - apply Byte.of_N_None_iff in E. lia.
Qed.

Lemma elt_of_elt (e : Z) : (1 <= e <= 256)%Z -> Model.elt (Model.of_elt e) = e.
Proof.
  intros He. unfold Model.elt, Model.of_elt.
  rewrite byte_of_N_to_N by lia. lia.
Qed.

(** Powers of the generator never vanish modulo 257. *)
Lemma pow_mod_range (k : N) : (1 <= (3 ^ Z.of_N k) mod Model.p <= 256)%Z.
Proof.
  unfold Model.p.
  induction k as [|k IH] using N.peano_ind.
  - cbn. lia.
  - rewrite N2Z.inj_succ, Z.pow_succ_r by lia.
    rewrite <- Z.mul_mod_idemp_r by lia.
    set (y := (3 ^ Z.of_N k mod 257)%Z) in *.
    pose proof (Z.mod_pos_bound (3 * y) 257 ltac:(lia)) as Hb.
    assert (Hne : ((3 * y) mod 257 <> 0)%Z).
    { intros H0. apply Z.mod_divide in H0; [| lia].
      destruct H0 as [q Hq]. lia. }
    lia.
Qed.

Lemma upper_char_hex (c : ascii) :
  is_lower_hex_digit c = true -> is_hex_digit (Model.upper_char c) = true.
Proof. destruct c as [[] [] [] [] [] [] [] []]; cbn; intros H; try discriminate; reflexivity. Qed.

Lemma upper_hex (s : string) :
  all_chars is_lower_hex_digit s = true -> all_chars is_hex_digit (Model.upper s) = true.
Proof.
  induction s as [|c s IH]; [reflexivity |].
  cbn [all_chars Model.upper]. intros H. apply andb_prop in H as [Hc Hs].
  now rewrite upper_char_hex, IH.
Qed.

Lemma upper_length (s : string) : String.length (Model.upper s) = String.length s.
Proof. induction s as [|c s IH]; simpl; [reflexivity | now rewrite IH]. Qed.

Lemma model_address_shape (key : string) :
  is_address ("0x" ++ Model.upper (Js.slice_from 2
                 (uint8ArrayToHex (firstn 20 (Model.hash32 (hexToUint8Array key))))))
  = true.
Proof.
  unfold is_address.
  rewrite startsWith_0x, slice_from_0x, uint8ArrayToHex_unfold, slice_from_0x.
  rewrite upper_hex by apply join_hex2_lower.
  rewrite length_append, upper_length, join_hex2_length.
  reflexivity.
Qed.

Lemma power_power (k j : N) :
  Model.power (Model.power x02 k) j
  = Model.of_elt ((3 ^ (Z.of_N k * Z.of_N j)) mod Model.p).
Proof.
  unfold Model.power at 1 2. change (Model.elt x02) with 3%Z.
  rewrite elt_of_elt by apply pow_mod_range.
  rewrite <- Zpower_mod by (unfold Model.p; lia).
  rewrite <- Z.pow_mul_r by lia. reflexivity.
Qed.

Lemma model_laws : LibLaws Model.lib.
Proof.
  constructor.
  - intros a b _ _. cbn [multiply BASE Model.lib].
    rewrite !power_power. now rewrite Z.mul_comm.
  - intros [] P; reflexivity.
  - intros [] P; reflexivity.
  - intros s _. eexists. reflexivity.
  - intros s h H.
    change (Ok (uint8ArrayToHex (Model.hash32 (hexToUint8Array s))) = Ok h) in H.
    apply Ok_inj in H. subst h.
    apply (uint8ArrayToHex_canonical_bytes (Model.hash32 (hexToUint8Array s))).
  - intros k a H.
    change (Model.account_address k = Ok a) in H. unfold Model.account_address in H.
    apply Ok_inj in H. subst a.
    apply model_address_shape.
  - intros i. apply (uint8ArrayToHex_canonical_bytes
                       (repeat x00 31 ++ [Js.byte_of_N (N.of_nat (7 * i + 3) mod 255 + 1)])).
Qed.

End ModelLaws.

(* ================================================================== *)
(** * Properties of [src/core.ts] *)

(** Inverts a successful sequence of library calls. *)
Ltac inv_bind H :=
  repeat match type of H with
    | bind ?r _ = Ok _ =>
        let E := fresh "E" in
        destruct r eqn:E; cbn [bind] in H; [| discriminate H]
    | (if ?b then _ else _) = Ok _ =>
        let E := fresh "E" in
        destruct b eqn:E; [try discriminate H | try discriminate H]
    end.

Section CoreFacts.

Context {L : Lib} (HL : LibLaws L).

Lemma computeECDH_on_point (privateKey : string) (c : bool) (P : point) :
  computeECDH privateKey (uint8ArrayToHex (toRawBytes c P)) = ecdh_on_point privateKey P.
Proof.
  unfold computeECDH, ecdh_on_point. fold ecdh_failed. f_equal.
  rewrite (falsy_false_of_startsWith _ (uint8ArrayToHex_startsWith _)), orb_false_r.
  destruct (Js.falsy privateKey); [reflexivity |].
  destruct (negb (Nat.eqb (String.length (with_0x privateKey)) 66)); [reflexivity |].
  rewrite uint8ArrayToHex_with_0x, uint8ArrayToHex_length, (toRawBytes_length HL).
  rewrite hexToUint8Array_uint8ArrayToHex, hexToUint8Array_with_0x.
  unfold getSharedSecret. rewrite (fromHex_toRawBytes HL).
  destruct c, (normPrivateKeyToScalar (hexToUint8Array privateKey)); reflexivity.
Qed.

Lemma normPrivateKeyToScalar_range (key : list byte) (k : N) :
  normPrivateKeyToScalar key = Ok k -> (0 < k < CURVE_n)%N.
Proof.
  unfold normPrivateKeyToScalar. intros H. inv_bind H.
  injection H as <-. apply andb_prop in E0 as [H1 H2].
  apply N.ltb_lt in H1, H2. lia.
Qed.

Lemma derivePublicKey_inv (privateKey pub : string) :
  derivePublicKey privateKey = Ok pub ->
  exists k, normPrivateKeyToScalar (hexToUint8Array privateKey) = Ok k
            /\ pub = uint8ArrayToHex (toRawBytes true (multiply BASE k)).
Proof.
  unfold derivePublicKey, getPublicKey. intros H. inv_bind H.
  cbn [bind] in E. inv_bind E. injection E as <-. injection H as <-.
  eexists; split; reflexivity.
Qed.

Lemma length_66_not_falsy (k : string) :
  String.length (with_0x k) = 66 -> Js.falsy k = false.
Proof. destruct k; [discriminate | reflexivity]. Qed.

(** [computeECDH] of a well-formed private key with scalar [k] on the
    encoding of [P]. *)
Lemma computeECDH_scalar (privateKey : string) (k : N) (c : bool) (P : point) :
  String.length (with_0x privateKey) = 66 ->
  normPrivateKeyToScalar (hexToUint8Array privateKey) = Ok k ->
  computeECDH privateKey (uint8ArrayToHex (toRawBytes c P))
  = try_catch (keccak256 (uint8ArrayToHex (toRawBytes true (multiply P k)))) ecdh_failed.
Proof.
  intros Hlen Hk. rewrite computeECDH_on_point. unfold ecdh_on_point.
  rewrite (length_66_not_falsy _ Hlen), Hlen, Hk. cbn [Nat.eqb negb bind].
  destruct (keccak256 _); reflexivity.
Qed.

Lemma computeECDH_scalar_ok (privateKey : string) (k : N) (c : bool) (P : point) :
  String.length (with_0x privateKey) = 66 ->
  normPrivateKeyToScalar (hexToUint8Array privateKey) = Ok k ->
  exists secret,
    keccak256 (uint8ArrayToHex (toRawBytes true (multiply P k))) = Ok secret
    /\ computeECDH privateKey (uint8ArrayToHex (toRawBytes c P)) = Ok secret.
Proof.
  intros Hlen Hk. rewrite (computeECDH_scalar privateKey k c P Hlen Hk).
  destruct (keccak256_total HL _ (uint8ArrayToHex_canonical
                                    (toRawBytes true (multiply P k)))) as [h Hh].
  exists h. now rewrite Hh.
Qed.

End CoreFacts.

Section Derivation.

Context {L : Lib}.

(** The tail of the three functions in terms of [stealth_account]. *)
Lemma stealth_account_inv (ss vpub : string) (A : Type)
      (k : string -> string -> result A) (r : A) :
  (let* sharedSecretBytes := hexToBytes ss in
   let* viewingPubBytes := hexToBytes vpub in
   let combined := (sharedSecretBytes ++ viewingPubBytes)%list in
   let* stealthPrivateKey := keccak256 (toHex combined) in
   let* address := privateKeyToAccount stealthPrivateKey in
   k stealthPrivateKey address) = Ok r ->
  exists key address, stealth_account ss vpub = Ok (key, address) /\ k key address = Ok r.
Proof.
  unfold stealth_account. intros H.
  destruct (hexToBytes ss) as [b1|]; [| discriminate H].
  destruct (hexToBytes vpub) as [b2|]; [| discriminate H].
  cbn [bind] in *.
  destruct (keccak256 (toHex (b1 ++ b2))) as [key|]; [| discriminate H].
  cbn [bind] in *.
  destruct (privateKeyToAccount key) as [a|]; [| discriminate H].
  cbn [bind] in *. now exists key, a.
Qed.

Lemma stealth_account_intro (ss vpub key address : string) (A : Type)
      (k : string -> string -> result A) :
  stealth_account ss vpub = Ok (key, address) ->
  (let* sharedSecretBytes := hexToBytes ss in
   let* viewingPubBytes := hexToBytes vpub in
   let combined := (sharedSecretBytes ++ viewingPubBytes)%list in
   let* stealthPrivateKey := keccak256 (toHex combined) in
   let* address := privateKeyToAccount stealthPrivateKey in
   k stealthPrivateKey address) = k key address.
Proof.
  unfold stealth_account. intros H.
  destruct (hexToBytes ss) as [b1|]; [| discriminate H].
  destruct (hexToBytes vpub) as [b2|]; [| discriminate H].
  cbn [bind] in *.
  destruct (keccak256 (toHex (b1 ++ b2))) as [key'|]; [| discriminate H].
  cbn [bind] in *.
  destruct (privateKeyToAccount key') as [a|]; [| discriminate H].
  cbn [bind] in *. now injection H as -> ->.
Qed.

Lemma generateStealthKeys_inv (st : nat) (K : StealthKeys.t) (st1 : nat) :
  generateStealthKeys st = (Ok K, st1) ->
  StealthKeys.spendingPrivateKey K = random_private_key st
  /\ StealthKeys.viewingPrivateKey K = random_private_key (S st)
  /\ derivePublicKey (StealthKeys.spendingPrivateKey K) = Ok (StealthKeys.spendingPublicKey K)
  /\ derivePublicKey (StealthKeys.viewingPrivateKey K) = Ok (StealthKeys.viewingPublicKey K).
Proof.
  unfold generateStealthKeys, generatePrivateKey. intros H.
  injection H as H _.
  destruct (derivePublicKey (random_private_key st)) as [sp|] eqn:E1; [| discriminate H].
  destruct (derivePublicKey (random_private_key (S st))) as [vp|] eqn:E2; [| discriminate H].
  cbn [bind] in H. injection H as <-. cbn. auto.
Qed.

Lemma generateStealthAddress_inv
      (viewingPublicKey : string) (sp eph : option string) (st : nat)
      (S : StealthAddress.t) (st2 : nat) :
  generateStealthAddress viewingPublicKey sp eph st = (Ok S, st2) ->
  exists ephemeralKey sharedSecret key,
    ephemeralKey = (if Js.missing eph then random_private_key st else Js.or_default eph EmptyString)
    /\ derivePublicKey ephemeralKey = Ok (StealthAddress.ephemeralPublicKey S)
    /\ computeECDH ephemeralKey (with_0x viewingPublicKey) = Ok sharedSecret
    /\ stealth_account sharedSecret (with_0x viewingPublicKey)
       = Ok (key, StealthAddress.address S)
    /\ StealthAddress.viewTag S = Js.toLowerCase (Js.slice 2 4 sharedSecret).
Proof.
  unfold generateStealthAddress, generatePrivateKey. intros H.
  destruct (negb _ && negb _)%bool; [discriminate H |].
  set (ephemeralKey :=
         if Js.missing eph then random_private_key st else Js.or_default eph EmptyString).
  assert (Hk : (let '(ephemeralKey0, st0) :=
                  if Js.missing eph then (random_private_key st, Datatypes.S st)
                  else (Js.or_default eph EmptyString, st) in
                (let* ephemeralPublicKey := derivePublicKey ephemeralKey0 in
                 let* sharedSecret := computeECDH ephemeralKey0 (with_0x viewingPublicKey) in
                 let* sharedSecretBytes := hexToBytes sharedSecret in
                 let* viewingPubBytes := hexToBytes (with_0x viewingPublicKey) in
                 let combined := (sharedSecretBytes ++ viewingPubBytes)%list in
                 let* stealthPrivateKey := keccak256 (toHex combined) in
                 let* stealthAccount_address := privateKeyToAccount stealthPrivateKey in
                 let viewTag := Js.toLowerCase (Js.slice 2 4 sharedSecret) in
                 Ok (StealthAddress.make stealthAccount_address ephemeralPublicKey viewTag),
                 st0)) = (Ok S, st2)) by exact H.
  clear H. rename Hk into H.
  assert (H' : (let* ephemeralPublicKey := derivePublicKey ephemeralKey in
                let* sharedSecret := computeECDH ephemeralKey (with_0x viewingPublicKey) in
                let* sharedSecretBytes := hexToBytes sharedSecret in
                let* viewingPubBytes := hexToBytes (with_0x viewingPublicKey) in
                let combined := (sharedSecretBytes ++ viewingPubBytes)%list in
                let* stealthPrivateKey := keccak256 (toHex combined) in
                let* stealthAccount_address := privateKeyToAccount stealthPrivateKey in
                let viewTag := Js.toLowerCase (Js.slice 2 4 sharedSecret) in
                Ok (StealthAddress.make stealthAccount_address ephemeralPublicKey viewTag))
               = Ok S).
  { unfold ephemeralKey. destruct (Js.missing eph); now injection H as H _. }
  clear H.
  destruct (derivePublicKey ephemeralKey) as [E|] eqn:HE; [| discriminate H'].
  destruct (computeECDH ephemeralKey (with_0x viewingPublicKey)) as [ss|] eqn:Hss;
    [| discriminate H'].
  cbn [bind] in H'.
  apply (stealth_account_inv ss (with_0x viewingPublicKey) StealthAddress.t
           (fun _ a => Ok (StealthAddress.make a E (Js.toLowerCase (Js.slice 2 4 ss)))))
    in H' as (key & a & Hacc & Hres).
  injection Hres as <-. exists ephemeralKey, ss, key. cbn. auto.
Qed.

End Derivation.

Section Scanner.

Context {L : Lib}.

Lemma missing_false (x : option string) :
  Js.missing x = false ->
  exists s, x = Some s /\ Js.falsy s = false /\ Js.or_default x EmptyString = s.
Proof.
  destruct x as [s|]; [| discriminate]. cbn. intros H. exists s. now rewrite H.
Qed.

(** A record is pushed only after every step of the re-derivation succeeded
    and both comparisons held. *)
Lemma scan_record_inv (viewingPriv viewingPub : string) (meta : StealthMetadata.t)
      (found : StealthAddress.t) :
  scan_record viewingPriv viewingPub meta = Ok (Some found) ->
  exists claimed eph tag sharedSecret key derived,
    StealthMetadata.stealthAddress meta = Some claimed
    /\ StealthMetadata.ephemeralPublicKey meta = Some eph
    /\ StealthMetadata.viewTag meta = Some tag
    /\ computeECDH viewingPriv (with_0x eph) = Ok sharedSecret
    /\ Js.toLowerCase (Js.slice 2 4 sharedSecret) = Js.strip_0x (Js.toLowerCase tag)
    /\ stealth_account sharedSecret viewingPub = Ok (key, derived)
    /\ Js.toLowerCase derived = Js.toLowerCase claimed
    /\ found = StealthAddress.make claimed (with_0x eph) tag.
Proof.
  unfold scan_record. intros H.
  destruct (Js.missing (StealthMetadata.stealthAddress meta)) eqn:M1; [discriminate H |].
  destruct (Js.missing (StealthMetadata.ephemeralPublicKey meta)) eqn:M2; [discriminate H |].
  destruct (Js.missing (StealthMetadata.viewTag meta)) eqn:M3; [discriminate H |].
  cbn [orb] in H.
  apply missing_false in M1 as (claimed & M1 & _ & D1).
  apply missing_false in M2 as (eph & M2 & _ & D2).
  apply missing_false in M3 as (tag & M3 & _ & D3).
  rewrite D1, D2, D3 in H. clear D1 D2 D3.
  destruct (computeECDH viewingPriv (with_0x eph)) as [ss|] eqn:Hss; [| discriminate H].
  cbn [bind] in H.
  destruct (String.eqb (Js.toLowerCase (Js.slice 2 4 ss)) (Js.strip_0x (Js.toLowerCase tag)))
    eqn:Htag; [| discriminate H].
  cbn [negb] in H.
  apply (stealth_account_inv ss viewingPub (option StealthAddress.t)
           (fun _ a =>
              if String.eqb (Js.toLowerCase a) (Js.toLowerCase claimed)
              then Ok (Some (StealthAddress.make claimed (with_0x eph) tag))
              else Ok None))
    in H as (key & derived & Hacc & Hres).
  destruct (String.eqb (Js.toLowerCase derived) (Js.toLowerCase claimed)) eqn:Haddr;
    [| discriminate Hres].
  injection Hres as <-.
  apply String.eqb_eq in Htag, Haddr.
  exists claimed, eph, tag, ss, key, derived. auto 10.
Qed.

(** The scanner on a record whose view tag matches, by the outcome of the
    address comparison. *)
Lemma scan_record_tag_match (viewingPriv viewingPub : string) (meta : StealthMetadata.t)
      (claimed eph tag sharedSecret key derived : string) :
  StealthMetadata.stealthAddress meta = Some claimed -> Js.falsy claimed = false ->
  StealthMetadata.ephemeralPublicKey meta = Some eph -> Js.falsy eph = false ->
  StealthMetadata.viewTag meta = Some tag -> Js.falsy tag = false ->
  computeECDH viewingPriv (with_0x eph) = Ok sharedSecret ->
  Js.toLowerCase (Js.slice 2 4 sharedSecret) = Js.strip_0x (Js.toLowerCase tag) ->
  stealth_account sharedSecret viewingPub = Ok (key, derived) ->
  scan_record viewingPriv viewingPub meta
  = if String.eqb (Js.toLowerCase derived) (Js.toLowerCase claimed)
    then Ok (Some (StealthAddress.make claimed (with_0x eph) tag))
    else Ok None.
Proof.
  intros H1 F1 H2 F2 H3 F3 Hss Htag Hacc. unfold scan_record.
  rewrite H1, H2, H3. cbn [Js.missing Js.or_default].
  rewrite F1, F2, F3. cbn [orb]. rewrite Hss. cbn [bind].
  rewrite Htag, String.eqb_refl. cbn [negb].
  now rewrite (stealth_account_intro sharedSecret viewingPub key derived _ _ Hacc).
Qed.

Lemma scan_record_missing (viewingPriv viewingPub : string) (meta : StealthMetadata.t) :
  (Js.missing (StealthMetadata.stealthAddress meta)
   || Js.missing (StealthMetadata.ephemeralPublicKey meta)
   || Js.missing (StealthMetadata.viewTag meta))%bool = true ->
  scan_record viewingPriv viewingPub meta = Ok None.
Proof. unfold scan_record. now intros ->. Qed.

Lemma scan_step_one (viewingPriv viewingPub : string)
      (discovered : list StealthAddress.t) (meta : StealthMetadata.t) :
  scan_step viewingPriv viewingPub discovered meta
  = (discovered ++ scan_one viewingPriv viewingPub meta)%list.
Proof.
  unfold scan_step, scan_one.
  destruct (scan_record viewingPriv viewingPub meta) as [[found|]|];
    now rewrite ?app_nil_r.
Qed.

(** The loop appends, record by record and in input order, what each record
    yields on its own. *)
Lemma scan_loop (viewingPriv viewingPub : string) (metas : list StealthMetadata.t) :
  forall discovered,
    fold_left (scan_step viewingPriv viewingPub) metas discovered
    = (discovered ++ flat_map (scan_one viewingPriv viewingPub) metas)%list.
Proof.
  induction metas as [|meta metas IH]; intros discovered; cbn [fold_left flat_map].
  - now rewrite app_nil_r.
  - now rewrite IH, scan_step_one, app_assoc.
Qed.

Lemma scanStealthAddresses_flat_map (viewingPrivateKey viewingPublicKey : string)
      (metas : list StealthMetadata.t) :
  Js.falsy viewingPrivateKey = false -> Js.falsy viewingPublicKey = false ->
  scanStealthAddresses viewingPrivateKey viewingPublicKey metas
  = Ok (flat_map (scan_one (with_0x viewingPrivateKey) (with_0x viewingPublicKey)) metas).
Proof.
  intros H1 H2. unfold scanStealthAddresses. rewrite H1, H2. cbn [orb].
  now rewrite scan_loop.
Qed.

Lemma scanStealthAddresses_inv (viewingPrivateKey viewingPublicKey : string)
      (metas : list StealthMetadata.t) (res : list StealthAddress.t) :
  scanStealthAddresses viewingPrivateKey viewingPublicKey metas = Ok res ->
  res = flat_map (scan_one (with_0x viewingPrivateKey) (with_0x viewingPublicKey)) metas.
Proof.
  unfold scanStealthAddresses.
  destruct (Js.falsy viewingPrivateKey || Js.falsy viewingPublicKey)%bool; [discriminate |].
  intros H. injection H as <-. now rewrite scan_loop.
Qed.

Lemma scan_one_In (viewingPriv viewingPub : string) (meta : StealthMetadata.t)
      (found : StealthAddress.t) :
  In found (scan_one viewingPriv viewingPub meta) ->
  scan_record viewingPriv viewingPub meta = Ok (Some found).
Proof.
  unfold scan_one.
  destruct (scan_record viewingPriv viewingPub meta) as [[f|]|]; cbn; try tauto.
  intros [-> | []]. reflexivity.
Qed.

(** Every discovered address was pushed for some record of the input. *)
Lemma scan_found (viewingPrivateKey viewingPublicKey : string)
      (metas : list StealthMetadata.t) (res : list StealthAddress.t)
      (found : StealthAddress.t) :
  scanStealthAddresses viewingPrivateKey viewingPublicKey metas = Ok res ->
  In found res ->
  exists meta,
    In meta metas
    /\ scan_record (with_0x viewingPrivateKey) (with_0x viewingPublicKey) meta
       = Ok (Some found).
Proof.
  intros H Hin. apply scanStealthAddresses_inv in H. subst res.
  apply in_flat_map in Hin as (meta & Hmeta & Hfound).
  exists meta. split; [exact Hmeta | now apply scan_one_In].
Qed.

End Scanner.

Section Shapes.

Lemma startsWith_0x_inv (s : string) :
  Js.startsWith "0x" s = true -> exists t, s = "0x" ++ t.
Proof.
  unfold Js.startsWith. intros H. apply prefix_correct in H.
  destruct s as [|a [|b t]]; try discriminate H.
  cbn [String.length substring] in H. injection H as -> -> _. now exists t.
Qed.

Lemma canonical_hex_bytes_inv (n : nat) (s : string) :
  canonical_hex_bytes n s = true ->
  exists t, s = "0x" ++ t /\ String.length t = 2 * n
            /\ all_chars is_lower_hex_digit t = true.
Proof.
  unfold canonical_hex_bytes, canonical_hex. intros H.
  apply andb_prop in H as [H Hlen]. apply andb_prop in H as [Hp Hall].
  apply startsWith_0x_inv in Hp as [t ->]. rewrite slice_from_0x in Hall.
  apply Nat.eqb_eq in Hlen. rewrite length_append in Hlen. cbn in Hlen.
  exists t. repeat split; [lia | exact Hall].
Qed.

Lemma canonical_hex_bytes_with_0x (n : nat) (s : string) :
  canonical_hex_bytes n s = true ->
  with_0x s = s /\ String.length s = 2 + 2 * n /\ Js.falsy s = false.
Proof.
  intros H. destruct (canonical_hex_bytes_inv n s H) as (t & -> & Hlen & _).
  rewrite with_0x_prefixed, length_append, Hlen. repeat split.
Qed.

Lemma lower_char_hex_digit (c : ascii) :
  is_lower_hex_digit c = true -> Js.lower_char c = c.
Proof. destruct c as [[] [] [] [] [] [] [] []]; cbn; intros H; try discriminate; reflexivity. Qed.

Lemma hex_digit_not_x (c : ascii) : is_lower_hex_digit c = true -> "x"%char <> c.
Proof. intros H <-. discriminate H. Qed.

(** The view tag cut from a hash: its first two hex digits, unprefixed. *)
Lemma view_tag_of_hash (h : string) :
  canonical_hex_bytes 32 h = true ->
  let tag := Js.toLowerCase (Js.slice 2 4 h) in
  String.length tag = 2
  /\ all_chars is_lower_hex_digit tag = true
  /\ Js.startsWith "0x" tag = false
  /\ Js.strip_0x (Js.toLowerCase tag) = tag.
Proof.
  intros H. destruct (canonical_hex_bytes_inv 32 h H) as (t & -> & Hlen & Hall).
  destruct t as [|c1 [|c2 rest]]; try discriminate Hlen.
  cbn [all_chars] in Hall.
  apply andb_prop in Hall as [H1 Hall]. apply andb_prop in Hall as [H2 _].
  assert (Htag : Js.toLowerCase (Js.slice 2 4 ("0x" ++ String c1 (String c2 rest)))
                 = String c1 (String c2 EmptyString)).
  { unfold Js.slice. cbn [append Nat.sub substring].
    replace (substring 0 0 rest) with EmptyString by (destruct rest; reflexivity).
    cbn [Js.toLowerCase]. now rewrite !lower_char_hex_digit. }
  cbv zeta. rewrite Htag.
  assert (Hp : Js.startsWith "0x" (String c1 (String c2 EmptyString)) = false).
  { destruct (Js.startsWith "0x" (String c1 (String c2 EmptyString))) eqn:Hp;
      [| reflexivity].
    apply startsWith_0x_inv in Hp as [t Ht]. injection Ht as _ Hx _.
    symmetry in Hx. now apply hex_digit_not_x in Hx. }
  repeat split.
  - cbn [all_chars]. now rewrite H1, H2.
  - exact Hp.
  - cbn [Js.toLowerCase]. rewrite !lower_char_hex_digit by assumption.
    unfold Js.strip_0x. now rewrite Hp.
Qed.

Lemma is_address_not_falsy (a : string) : is_address a = true -> Js.falsy a = false.
Proof.
  unfold is_address. intros H. apply andb_prop in H as [H _].
  apply andb_prop in H as [H _]. now apply falsy_false_of_startsWith.
Qed.

Lemma try_catch_ok_inv (A : Type) (body : result A) (handler : JsError -> result A) (a : A) :
  (forall e, handler e <> Ok a) -> try_catch body handler = Ok a -> body = Ok a.
Proof.
  intros Hh. destruct body as [x|e]; cbn; [auto |]. intros H. now apply Hh in H.
Qed.

End Shapes.

Section RoundTrip.

Context {L : Lib} (HL : LibLaws L).

Lemma stealth_account_address (ss vpub key a : string) :
  stealth_account ss vpub = Ok (key, a) ->
  privateKeyToAccount key = Ok a /\ canonical_hex_bytes 32 key = true.
Proof.
  unfold stealth_account. intros H.
  destruct (hexToBytes ss) as [b1|]; [| discriminate H].
  destruct (hexToBytes vpub) as [b2|]; [| discriminate H].
  cbn [bind] in H.
  destruct (keccak256 (toHex (b1 ++ b2))) as [key'|] eqn:Hk; [| discriminate H].
  cbn [bind] in H.
  destruct (privateKeyToAccount key') as [a'|] eqn:Ha; [| discriminate H].
  cbn [bind] in H. injection H as <- <-.
  split; [exact Ha | exact (keccak256_shape HL _ _ Hk)].
Qed.

(** A successful [computeECDH] on the encoding of a point: the private key
    is well formed and the secret is the hash of the compressed product. *)
Lemma computeECDH_on_point_inv (privateKey : string) (c : bool) (P : point)
      (secret : string) :
  computeECDH privateKey (uint8ArrayToHex (toRawBytes c P)) = Ok secret ->
  exists k,
    String.length (with_0x privateKey) = 66
    /\ normPrivateKeyToScalar (hexToUint8Array privateKey) = Ok k
    /\ keccak256 (uint8ArrayToHex (toRawBytes true (multiply P k))) = Ok secret.
Proof.
  rewrite (computeECDH_on_point HL). unfold ecdh_on_point. intros H.
  apply try_catch_ok_inv in H; [| discriminate].
  destruct (Js.falsy privateKey); [discriminate H |].
  destruct (Nat.eqb (String.length (with_0x privateKey)) 66) eqn:Hlen;
    [| discriminate H].
  cbn [negb] in H. apply Nat.eqb_eq in Hlen.
  destruct (normPrivateKeyToScalar (hexToUint8Array privateKey)) as [k|]; [| discriminate H].
  cbn [bind] in H.
  destruct (keccak256 _) as [h|] eqn:Hh; [| discriminate H].
  cbn [bind] in H. injection H as <-. now exists k.
Qed.

(** Both sides of the exchange hash the same point. *)
Lemma ecdh_agree (a b A B secret : string) :
  String.length (with_0x b) = 66 ->
  derivePublicKey a = Ok A -> derivePublicKey b = Ok B ->
  computeECDH a B = Ok secret ->
  computeECDH b A = Ok secret.
Proof.
  intros Hlen HA HB Hs.
  apply derivePublicKey_inv in HA as (ka & Hka & ->).
  apply derivePublicKey_inv in HB as (kb & Hkb & ->).
  apply computeECDH_on_point_inv in Hs as (k & _ & Hk & Hh).
  rewrite Hka in Hk. injection Hk as <-.
  rewrite (computeECDH_scalar HL b kb true _ Hlen Hkb).
  rewrite (multiply_comm HL ka kb
             (normPrivateKeyToScalar_range _ _ Hka) (normPrivateKeyToScalar_range _ _ Hkb)).
  now rewrite Hh.
Qed.

(** The record published for a generated address is recognised by the
    receiver's viewing keys. *)
Lemma roundtrip_record (st : nat) (K : StealthKeys.t) (st1 : nat)
      (sp eph : option string) (st' : nat) (S : StealthAddress.t) (st2 : nat)
      (network : string) (now : Z) :
  generateStealthKeys st = (Ok K, st1) ->
  generateStealthAddress (StealthKeys.viewingPublicKey K) sp eph st' = (Ok S, st2) ->
  scan_record (with_0x (StealthKeys.viewingPrivateKey K))
              (with_0x (StealthKeys.viewingPublicKey K))
              (createStealthMetadata S network now)
  = Ok (Some S).
Proof.
  intros HK HS.
  apply generateStealthKeys_inv in HK as (_ & Hvpriv & _ & Hvpub).
  apply generateStealthAddress_inv in HS as (ek & ss & key & _ & HE & Hss & Hacc & Htag).
  pose proof (random_private_key_shape HL (Datatypes.S st)) as Hshape.
  rewrite <- Hvpriv in Hshape.
  apply canonical_hex_bytes_with_0x in Hshape as (Hw & Hlen & _).
  destruct (derivePublicKey_inv _ _ Hvpub) as (kv & _ & Hpub).
  destruct (derivePublicKey_inv _ _ HE) as (ke & _ & Hepub).
  assert (Hwpub : with_0x (StealthKeys.viewingPublicKey K) = StealthKeys.viewingPublicKey K)
    by (rewrite Hpub; apply uint8ArrayToHex_with_0x).
  assert (Hwe : with_0x (StealthAddress.ephemeralPublicKey S)
                = StealthAddress.ephemeralPublicKey S)
    by (rewrite Hepub; apply uint8ArrayToHex_with_0x).
  rewrite Hwpub in *. rewrite Hw.
  assert (Hss' : computeECDH (StealthKeys.viewingPrivateKey K)
                             (StealthAddress.ephemeralPublicKey S) = Ok ss).
  { apply (ecdh_agree ek _ (StealthAddress.ephemeralPublicKey S)
             (StealthKeys.viewingPublicKey K)); auto.
    rewrite Hw. exact Hlen. }
  assert (Hh : canonical_hex_bytes 32 ss = true).
  { rewrite Hpub in Hss.
    apply computeECDH_on_point_inv in Hss as (k & _ & _ & Hh).
    exact (keccak256_shape HL _ _ Hh). }
  destruct (view_tag_of_hash ss Hh) as (Htlen & _ & _ & Hstrip).
  destruct (stealth_account_address _ _ _ _ Hacc) as [Haddr _].
  rewrite (scan_record_tag_match _ _ (createStealthMetadata S network now)
             (StealthAddress.address S) (StealthAddress.ephemeralPublicKey S)
             (StealthAddress.viewTag S) ss key (StealthAddress.address S)).
  - rewrite String.eqb_refl, Hwe. now destruct S.
  - reflexivity.
  - exact (is_address_not_falsy _ (address_shape HL _ _ Haddr)).
  - reflexivity.
  - rewrite Hepub. exact (falsy_false_of_startsWith _ (uint8ArrayToHex_startsWith _)).
  - reflexivity.
  - rewrite Htag. destruct (Js.toLowerCase (Js.slice 2 4 ss)); [discriminate Htlen | reflexivity].
  - rewrite Hwe. exact Hss'.
  - rewrite Htag. now rewrite Hstrip.
  - exact Hacc.
Qed.

Lemma scanStealthAddresses_keys_present (viewingPrivateKey viewingPublicKey : string)
      (metas : list StealthMetadata.t) (res : list StealthAddress.t) :
  scanStealthAddresses viewingPrivateKey viewingPublicKey metas = Ok res ->
  Js.falsy viewingPrivateKey = false /\ Js.falsy viewingPublicKey = false.
Proof.
  unfold scanStealthAddresses.
  destruct (Js.falsy viewingPrivateKey), (Js.falsy viewingPublicKey);
    cbn [orb]; intros H; try discriminate H; auto.
Qed.

End RoundTrip.

Section Recovery.

Context {L : Lib}.

Lemma with_0x_length (s : string) : 2 <= String.length (with_0x s).
Proof.
  unfold with_0x. destruct (Js.startsWith "0x" s) eqn:E.
  - apply startsWith_0x_inv in E as [t ->]. rewrite length_append. cbn. lia.
  - rewrite length_append. cbn. lia.
Qed.

(** The steps behind a key returned by [deriveStealthSpendingKey]. *)
Lemma deriveStealthSpendingKey_inv
      (spendingPrivateKey viewingPrivateKey stealthAddress ephemeralPublicKey : string)
      (viewingPublicKey : option string) (key : string) :
  deriveStealthSpendingKey spendingPrivateKey viewingPrivateKey stealthAddress
    ephemeralPublicKey viewingPublicKey = Ok key ->
  exists sharedSecret viewingPub derived,
    computeECDH viewingPrivateKey ephemeralPublicKey = Ok sharedSecret
    /\ (if Js.missing viewingPublicKey then derivePublicKey viewingPrivateKey
        else Ok (Js.or_default viewingPublicKey EmptyString)) = Ok viewingPub
    /\ stealth_account sharedSecret viewingPub = Ok (key, derived)
    /\ Js.toLowerCase derived = Js.toLowerCase stealthAddress.
Proof.
  unfold deriveStealthSpendingKey. intros H.
  destruct (computeECDH viewingPrivateKey ephemeralPublicKey) as [ss|]; [| discriminate H].
  cbn [bind] in H.
  destruct (if Js.missing viewingPublicKey then derivePublicKey viewingPrivateKey
            else Ok (Js.or_default viewingPublicKey EmptyString)) as [vpk|]; [| discriminate H].
  cbn [bind] in H.
  apply (stealth_account_inv ss vpk string
           (fun k a =>
              if negb (String.eqb (Js.toLowerCase a) (Js.toLowerCase stealthAddress))
              then Throw (Error "Derived address mismatch!") else Ok k))
    in H as (k & derived & Hacc & Hres).
  destruct (String.eqb (Js.toLowerCase derived) (Js.toLowerCase stealthAddress)) eqn:Heq;
    [| discriminate Hres].
  cbn [negb] in Hres. injection Hres as ->. apply String.eqb_eq in Heq.
  exists ss, vpk, derived. auto.
Qed.

(** [deriveStealthSpendingKey] once the derivation has gone through: the
    comparison of addresses decides between the key and the error. *)
Lemma deriveStealthSpendingKey_checked
      (spendingPrivateKey viewingPrivateKey stealthAddress ephemeralPublicKey : string)
      (viewingPublicKey : option string) (sharedSecret viewingPub key derived : string) :
  computeECDH viewingPrivateKey ephemeralPublicKey = Ok sharedSecret ->
  (if Js.missing viewingPublicKey then derivePublicKey viewingPrivateKey
   else Ok (Js.or_default viewingPublicKey EmptyString)) = Ok viewingPub ->
  stealth_account sharedSecret viewingPub = Ok (key, derived) ->
  deriveStealthSpendingKey spendingPrivateKey viewingPrivateKey stealthAddress
    ephemeralPublicKey viewingPublicKey
  = if String.eqb (Js.toLowerCase derived) (Js.toLowerCase stealthAddress)
    then Ok key else Throw (Error "Derived address mismatch!").
Proof.
  intros Hss Hvp Hacc. unfold deriveStealthSpendingKey.
  rewrite Hss. cbn [bind]. rewrite Hvp. cbn [bind].
  rewrite (stealth_account_intro sharedSecret viewingPub key derived _ _ Hacc).
  now destruct (String.eqb _ _).
Qed.

End Recovery.

Section OutputShapes.

Context {L : Lib} (HL : LibLaws L).

Lemma computeECDH_shape (privateKey publicKey secret : string) :
  computeECDH privateKey publicKey = Ok secret -> canonical_hex_bytes 32 secret = true.
Proof.
  unfold computeECDH. intros H. apply try_catch_ok_inv in H; [| discriminate].
  destruct (Js.falsy privateKey || Js.falsy publicKey)%bool; [discriminate H |].
  destruct (negb (Nat.eqb (String.length (with_0x privateKey)) 66)); [discriminate H |].
  destruct (negb _ && negb _)%bool; [discriminate H |].
  destruct (getSharedSecret _ _) as [sp|]; [| discriminate H].
  cbn [bind] in H.
  destruct (keccak256 (uint8ArrayToHex sp)) as [h|] eqn:Hh; [| discriminate H].
  cbn [bind] in H. injection H as <-. exact (keccak256_shape HL _ _ Hh).
Qed.

Lemma derivePublicKey_shape (privateKey pub : string) :
  derivePublicKey privateKey = Ok pub -> canonical_hex_bytes 33 pub = true.
Proof.
  intros H. apply derivePublicKey_inv in H as (k & _ & ->).
  rewrite <- (toRawBytes_length HL true (multiply BASE k)).
  apply uint8ArrayToHex_canonical_bytes.
Qed.

End OutputShapes.

Section Echo.

Context {L : Lib}.

Lemma or_default_Some (s : string) : Js.or_default (Some s) EmptyString = s.
Proof. destruct s; reflexivity. Qed.

Lemma scan_record_echo (viewingPriv viewingPub : string) (meta : StealthMetadata.t)
      (found : StealthAddress.t) :
  scan_record viewingPriv viewingPub meta = Ok (Some found) -> found = echoed meta.
Proof.
  intros H. apply scan_record_inv in H
    as (claimed & eph & tag & ss & key & derived & H1 & H2 & H3 & _ & _ & _ & _ & ->).
  unfold echoed. now rewrite H1, H2, H3, !or_default_Some.
Qed.

Lemma scan_one_discovers (viewingPriv viewingPub : string) (meta : StealthMetadata.t) :
  scan_one viewingPriv viewingPub meta
  = if discovers viewingPriv viewingPub meta then [echoed meta] else [].
Proof.
  unfold scan_one, discovers.
  destruct (scan_record viewingPriv viewingPub meta) as [[found|]|] eqn:E; try reflexivity.
  now rewrite (scan_record_echo _ _ _ _ E).
Qed.

Lemma flat_map_scan_one (viewingPriv viewingPub : string) (metas : list StealthMetadata.t) :
  flat_map (scan_one viewingPriv viewingPub) metas
  = map echoed (filter (discovers viewingPriv viewingPub) metas).
Proof.
  induction metas as [|m metas IH]; [reflexivity |].
  cbn [flat_map filter]. rewrite scan_one_discovers, IH.
  now destruct (discovers viewingPriv viewingPub m).
Qed.

(** A record with its three fields present that passes both comparisons is
    pushed, with its own stored strings. *)
Lemma scan_one_matched (viewingPriv viewingPub : string) (meta : StealthMetadata.t)
      (claimed eph tag sharedSecret key derived : string) :
  StealthMetadata.stealthAddress meta = Some claimed -> claimed <> EmptyString ->
  StealthMetadata.ephemeralPublicKey meta = Some eph -> eph <> EmptyString ->
  StealthMetadata.viewTag meta = Some tag -> tag <> EmptyString ->
  computeECDH viewingPriv (with_0x eph) = Ok sharedSecret ->
  Js.toLowerCase (Js.slice 2 4 sharedSecret) = Js.strip_0x (Js.toLowerCase tag) ->
  stealth_account sharedSecret viewingPub = Ok (key, derived) ->
  Js.toLowerCase derived = Js.toLowerCase claimed ->
  scan_one viewingPriv viewingPub meta = [StealthAddress.make claimed (with_0x eph) tag].
Proof.
  intros H1 N1 H2 N2 H3 N3 Hss Htag Hacc Heq.
  assert (Hf : forall s, s <> EmptyString -> Js.falsy s = false).
  { intros s Hs. destruct s; [contradiction | reflexivity]. }
  unfold scan_one.
  rewrite (scan_record_tag_match viewingPriv viewingPub meta claimed eph tag
             sharedSecret key derived H1 (Hf _ N1) H2 (Hf _ N2) H3 (Hf _ N3) Hss Htag Hacc).
  now rewrite Heq, String.eqb_refl.
Qed.

End Echo.

(* ================================================================== *)
(** * The properties of the design, checked on the code *)

(** C1. Generation/scan round trip: for receiver keys [K] produced by
    [generateStealthKeys] and an address [S] produced by
    [generateStealthAddress] for [K]'s viewing public key (whatever the
    optional arguments), scanning the single record
    [createStealthMetadata S] with [K]'s viewing keys returns exactly one
    result, and it is [S]: same address, same ephemeral public key. *)
Theorem generation_scan_roundtrip (L : Lib) (HL : LibLaws L)
    (st : nat) (K : StealthKeys.t) (st1 : nat)
    (sp eph : option string) (st' : nat) (S : StealthAddress.t) (st2 : nat)
    (network : string) (now : Z) :
  generateStealthKeys st = (Ok K, st1) ->
  generateStealthAddress (StealthKeys.viewingPublicKey K) sp eph st' = (Ok S, st2) ->
  scanStealthAddresses (StealthKeys.viewingPrivateKey K) (StealthKeys.viewingPublicKey K)
    [createStealthMetadata S network now]
  = Ok [S].
Proof.
  intros HK HS.
  pose proof (roundtrip_record HL st K st1 sp eph st' S st2 network now HK HS) as Hrec.
  destruct (generateStealthKeys_inv st K st1 HK) as (_ & Hvpriv & _ & Hvpub).
  rewrite scanStealthAddresses_flat_map.
  - cbn [flat_map]. unfold scan_one. now rewrite Hrec.
  - pose proof (random_private_key_shape HL (Datatypes.S st)) as Hshape.
    rewrite <- Hvpriv in Hshape. now apply canonical_hex_bytes_with_0x in Hshape.
  - apply derivePublicKey_inv in Hvpub as (k & _ & ->).
    exact (falsy_false_of_startsWith _ (uint8ArrayToHex_startsWith _)).
Qed.

Lemma generation_scan_roundtrip_witness :
  scanStealthAddresses (L := Model.lib)
    (StealthKeys.viewingPrivateKey Model.alice) (StealthKeys.viewingPublicKey Model.alice)
    [createStealthMetadata Model.payment "eth" 0]
  = Ok [Model.payment].
Proof.
  apply (generation_scan_roundtrip Model.lib model_laws
           0 Model.alice 2 None None 2 Model.payment 3 "eth" 0).
  - vm_compute. reflexivity.
  - vm_compute. reflexivity.
Defined.

(** C2. ECDH symmetry: for private keys [a] and [b] of 32 bytes that the
    curve accepts, with public keys [A = a.G] and [B = b.G], the secret
    [computeECDH a B] is computed, and [computeECDH b A] is the same string. *)
Theorem ecdh_symmetry (L : Lib) (HL : LibLaws L) (a b A B : string) :
  String.length (with_0x a) = 66 ->
  String.length (with_0x b) = 66 ->
  derivePublicKey a = Ok A ->
  derivePublicKey b = Ok B ->
  exists secret, computeECDH a B = Ok secret /\ computeECDH b A = Ok secret.
Proof.
  intros Ha Hb HA HB.
  destruct (derivePublicKey_inv a A HA) as (ka & Hka & _).
  destruct (derivePublicKey_inv b B HB) as (kb & Hkb & HBeq).
  destruct (computeECDH_scalar_ok HL a ka true (multiply BASE kb) Ha Hka)
    as (secret & _ & Hs).
  rewrite <- HBeq in Hs.
  exists secret. split; [exact Hs |].
  exact (ecdh_agree HL a b A B secret Hb HA HB Hs).
Qed.

Lemma ecdh_symmetry_witness :
  exists secret,
    computeECDH (L := Model.lib) (StealthKeys.viewingPrivateKey Model.alice)
      (StealthKeys.viewingPublicKey Model.bob) = Ok secret
    /\ computeECDH (L := Model.lib) (StealthKeys.viewingPrivateKey Model.bob)
         (StealthKeys.viewingPublicKey Model.alice) = Ok secret.
Proof.
  apply (ecdh_symmetry Model.lib model_laws); vm_compute; reflexivity.
Defined.

(** C8. Point-encoding normalisation: for a private key of 32 bytes with a
    valid scalar and a curve point [P], [computeECDH] returns a secret on
    the 33-byte compressed encoding of [P] and returns the same secret on
    its 65-byte uncompressed encoding. *)
Theorem point_encoding_normalization (L : Lib) (HL : LibLaws L)
    (privateKey : string) (k : N) (P : point) :
  String.length (with_0x privateKey) = 66 ->
  normPrivateKeyToScalar (hexToUint8Array privateKey) = Ok k ->
  List.length (toRawBytes true P) = 33
  /\ List.length (toRawBytes false P) = 65
  /\ exists secret,
       computeECDH privateKey (uint8ArrayToHex (toRawBytes true P)) = Ok secret
       /\ computeECDH privateKey (uint8ArrayToHex (toRawBytes false P)) = Ok secret.
Proof.
  intros Hlen Hk.
  split; [exact (toRawBytes_length HL true P) |].
  split; [exact (toRawBytes_length HL false P) |].
  destruct (computeECDH_scalar_ok HL privateKey k true P Hlen Hk) as (secret & Hh & Hs).
  exists secret. split; [exact Hs |].
  rewrite (computeECDH_scalar HL privateKey k false P Hlen Hk). now rewrite Hh.
Qed.

Lemma point_encoding_normalization_witness :
  exists secret,
    computeECDH (L := Model.lib) (StealthKeys.viewingPrivateKey Model.alice)
      "0x0200000000000000000000000000000000000000000000000000000000000000b8" = Ok secret
    /\ computeECDH (L := Model.lib) (StealthKeys.viewingPrivateKey Model.alice)
         "0x0400000000000000000000000000000000000000000000000000000000000000b80000000000000000000000000000000000000000000000000000000000000000"
       = Ok secret.
Proof.
  apply (point_encoding_normalization Model.lib model_laws
           (StealthKeys.viewingPrivateKey Model.alice) 11 xb8);
    vm_compute; reflexivity.
Defined.

(** C3. View-tag filter soundness: every address the scanner returns comes
    from a record of the input for which the shared secret was computed,
    the one-time address was re-derived from it and from the viewing public
    key, and the re-derived address equals the record's claimed address up
    to case.  A record is never returned on its view tag alone. *)
Theorem view_tag_filter_soundness (L : Lib)
    (viewingPrivateKey viewingPublicKey : string)
    (metas : list StealthMetadata.t) (res : list StealthAddress.t)
    (found : StealthAddress.t) :
  scanStealthAddresses viewingPrivateKey viewingPublicKey metas = Ok res ->
  In found res ->
  exists meta claimed eph sharedSecret key derived,
    In meta metas
    /\ StealthMetadata.stealthAddress meta = Some claimed
    /\ StealthMetadata.ephemeralPublicKey meta = Some eph
    /\ StealthAddress.address found = claimed
    /\ computeECDH (with_0x viewingPrivateKey) (with_0x eph) = Ok sharedSecret
    /\ stealth_account sharedSecret (with_0x viewingPublicKey) = Ok (key, derived)
    /\ Js.toLowerCase derived = Js.toLowerCase claimed.
Proof.
  intros Hscan Hin.
  destruct (scan_found _ _ _ _ _ Hscan Hin) as (meta & Hmeta & Hrec).
  apply scan_record_inv in Hrec
    as (claimed & eph & tag & ss & key & derived & H1 & H2 & _ & Hss & _ & Hacc & Heq & ->).
  exists meta, claimed, eph, ss, key, derived. cbn. auto 10.
Qed.

Lemma view_tag_filter_soundness_witness :
  exists meta claimed eph sharedSecret key derived,
    In meta [Model.record_wrong_address; Model.record_recased]
    /\ StealthMetadata.stealthAddress meta = Some claimed
    /\ StealthMetadata.ephemeralPublicKey meta = Some eph
    /\ "0X135f3b4473ca5c66edc815d1ede4a59c9034f81d" = claimed
    /\ computeECDH (L := Model.lib)
         (with_0x (StealthKeys.viewingPrivateKey Model.alice)) (with_0x eph)
       = Ok sharedSecret
    /\ stealth_account (L := Model.lib) sharedSecret
         (with_0x (StealthKeys.viewingPublicKey Model.alice)) = Ok (key, derived)
    /\ Js.toLowerCase derived = Js.toLowerCase claimed.
Proof.
  apply (view_tag_filter_soundness Model.lib
           (StealthKeys.viewingPrivateKey Model.alice)
           (StealthKeys.viewingPublicKey Model.alice)
           [Model.record_wrong_address; Model.record_recased]
           [StealthAddress.make
              "0X135f3b4473ca5c66edc815d1ede4a59c9034f81d"
              "0x0200000000000000000000000000000000000000000000000000000000000000b8"
              "0X87"]
           (StealthAddress.make
              "0X135f3b4473ca5c66edc815d1ede4a59c9034f81d"
              "0x0200000000000000000000000000000000000000000000000000000000000000b8"
              "0X87")).
  - vm_compute. reflexivity.
  - left. reflexivity.
Defined.

(** The record with the right view tag and the wrong address is passed over. *)
Example tag_match_alone_is_rejected :
  Js.toLowerCase (Js.slice 2 4 Model.payment_secret) = "87"
  /\ scanStealthAddresses (L := Model.lib)
       (StealthKeys.viewingPrivateKey Model.alice)
       (StealthKeys.viewingPublicKey Model.alice)
       [Model.record_wrong_address] = Ok [].
Proof. split; vm_compute; reflexivity. Qed.

(** C4. Spend-key self-verification: [deriveStealthSpendingKey] derives the
    address of the computed key and compares it, up to case, with the
    supplied address.  A key that is returned has an account address equal
    to the supplied one up to case; once the derivation has gone through,
    the key is returned when the addresses agree and the error
    "Derived address mismatch!" is thrown when they differ. *)
Theorem spend_key_self_verification (L : Lib)
    (spendingPrivateKey viewingPrivateKey stealthAddress ephemeralPublicKey : string)
    (viewingPublicKey : option string) :
  (forall key,
      deriveStealthSpendingKey spendingPrivateKey viewingPrivateKey stealthAddress
        ephemeralPublicKey viewingPublicKey = Ok key ->
      exists derived,
        privateKeyToAccount key = Ok derived
        /\ Js.toLowerCase derived = Js.toLowerCase stealthAddress)
  /\ (forall sharedSecret viewingPub key derived,
         computeECDH viewingPrivateKey ephemeralPublicKey = Ok sharedSecret ->
         (if Js.missing viewingPublicKey then derivePublicKey viewingPrivateKey
          else Ok (Js.or_default viewingPublicKey EmptyString)) = Ok viewingPub ->
         stealth_account sharedSecret viewingPub = Ok (key, derived) ->
         (Js.toLowerCase derived <> Js.toLowerCase stealthAddress ->
          deriveStealthSpendingKey spendingPrivateKey viewingPrivateKey stealthAddress
            ephemeralPublicKey viewingPublicKey
          = Throw (Error "Derived address mismatch!"))
         /\ (Js.toLowerCase derived = Js.toLowerCase stealthAddress ->
             deriveStealthSpendingKey spendingPrivateKey viewingPrivateKey stealthAddress
               ephemeralPublicKey viewingPublicKey
             = Ok key))
  /\ error_kind (Error "Derived address mismatch!") = Some DerivedAddressMismatch.
Proof.
  split; [| split; [| reflexivity]].
  - intros key H.
    apply deriveStealthSpendingKey_inv in H as (ss & vpk & derived & _ & _ & Hacc & Heq).
    exists derived. split; [| exact Heq].
    unfold stealth_account in Hacc.
    destruct (hexToBytes ss) as [b1|]; [| discriminate Hacc].
    destruct (hexToBytes vpk) as [b2|]; [| discriminate Hacc].
    cbn [bind] in Hacc.
    destruct (keccak256 (toHex (b1 ++ b2))) as [k|]; [| discriminate Hacc].
    cbn [bind] in Hacc.
    destruct (privateKeyToAccount k) as [a|] eqn:Ha; [| discriminate Hacc].
    cbn [bind] in Hacc. injection Hacc as <- <-. exact Ha.
  - intros ss vpk key derived Hss Hvp Hacc.
    rewrite (deriveStealthSpendingKey_checked spendingPrivateKey viewingPrivateKey
               stealthAddress ephemeralPublicKey viewingPublicKey ss vpk key derived
               Hss Hvp Hacc).
    split; intros H.
    + apply String.eqb_neq in H. now rewrite H.
    + now rewrite H, String.eqb_refl.
Qed.

Lemma spend_key_self_verification_witness :
  (exists derived,
      @privateKeyToAccount Model.lib Model.payment_key = Ok derived
      /\ Js.toLowerCase derived
         = Js.toLowerCase (StealthAddress.address Model.payment))
  /\ deriveStealthSpendingKey (L := Model.lib)
       (StealthKeys.spendingPrivateKey Model.alice)
       (StealthKeys.viewingPrivateKey Model.alice)
       (StealthAddress.address Model.payment_to_bob)
       (StealthAddress.ephemeralPublicKey Model.payment) None
     = Throw (Error "Derived address mismatch!").
Proof.
  split.
  - apply (proj1 (spend_key_self_verification Model.lib
                    (StealthKeys.spendingPrivateKey Model.alice)
                    (StealthKeys.viewingPrivateKey Model.alice)
                    (StealthAddress.address Model.payment)
                    (StealthAddress.ephemeralPublicKey Model.payment) None)).
    vm_compute. reflexivity.
  - apply (proj1 (proj2 (spend_key_self_verification Model.lib
                    (StealthKeys.spendingPrivateKey Model.alice)
                    (StealthKeys.viewingPrivateKey Model.alice)
                    (StealthAddress.address Model.payment_to_bob)
                    (StealthAddress.ephemeralPublicKey Model.payment) None))
             Model.payment_secret (StealthKeys.viewingPublicKey Model.alice)
             Model.payment_key (StealthAddress.address Model.payment)).
    + vm_compute. reflexivity.
    + vm_compute. reflexivity.
    + vm_compute. reflexivity.
    + vm_compute. discriminate.
Defined.

(** C5, as the code has it.  Whenever the private key, with its [0x]
    prefix, is not 66 characters long, or the public key, with its prefix,
    is neither 68 nor 132 characters long, [computeECDH] fails; the error
    it throws is the one of the handler, "ECDH computation failed: ...",
    the same that wraps the errors of the curve library, and the message
    about the missing key or the length is its tail. *)
Theorem shared_secret_length_errors (L : Lib) (privateKey publicKey : string) :
  String.length (with_0x privateKey) <> 66
  \/ (String.length (with_0x publicKey) <> 68
      /\ String.length (with_0x publicKey) <> 132) ->
  exists inner,
    computeECDH privateKey publicKey
    = Throw (Error ("ECDH computation failed: " ++ inner))
    /\ (inner = "Missing private or public key"
        \/ inner = "Invalid private key length: "
                     ++ Js.show_nat (String.length (with_0x privateKey))
                     ++ ", expected 66"
        \/ inner = "Invalid public key length: "
                     ++ Js.show_nat (String.length (with_0x publicKey))
                     ++ ", expected 68 or 132")
    /\ error_kind (Error ("ECDH computation failed: " ++ inner))
       = Some SharedSecretComputationFailed.
Proof.
  intros Hbad. unfold computeECDH.
  destruct (Js.falsy privateKey || Js.falsy publicKey)%bool.
  { eexists. split; [reflexivity |]. split; [now left | reflexivity]. }
  destruct (Nat.eqb (String.length (with_0x privateKey)) 66) eqn:Hpriv; cbn [negb].
  2: { eexists. split; [reflexivity |]. split; [right; now left | reflexivity]. }
  apply Nat.eqb_eq in Hpriv.
  destruct Hbad as [Hbad | [H68 H132]]; [contradiction |].
  pose proof (with_0x_length publicKey) as Hge.
  assert (H1 : Nat.eqb (String.length (with_0x publicKey) - 2) 66 = false)
    by (apply Nat.eqb_neq; lia).
  assert (H2 : Nat.eqb (String.length (with_0x publicKey) - 2) 130 = false)
    by (apply Nat.eqb_neq; lia).
  rewrite H1, H2. cbn [negb andb].
  eexists. split; [reflexivity |]. split; [right; now right | reflexivity].
Qed.

Lemma shared_secret_length_errors_witness :
  exists inner,
    computeECDH (L := Model.lib) "0x12" (StealthKeys.viewingPublicKey Model.alice)
    = Throw (Error ("ECDH computation failed: " ++ inner))
    /\ (inner = "Missing private or public key"
        \/ inner = "Invalid private key length: "
                     ++ Js.show_nat (String.length (with_0x "0x12")) ++ ", expected 66"
        \/ inner = "Invalid public key length: "
                     ++ Js.show_nat
                          (String.length (with_0x (StealthKeys.viewingPublicKey Model.alice)))
                     ++ ", expected 68 or 132")
    /\ error_kind (Error ("ECDH computation failed: " ++ inner))
       = Some SharedSecretComputationFailed.
Proof.
  apply (shared_secret_length_errors Model.lib "0x12"
           (StealthKeys.viewingPublicKey Model.alice)).
  left. vm_compute. discriminate.
Defined.

(** C5, as stated, fails: on a private key of one byte the error is not of
    the kind [InvalidKeyLength] but the wrapper of the handler. *)
Lemma shared_secret_error_taxonomy_counterexample :
  String.length (with_0x "0x12") <> 66
  /\ computeECDH (L := Model.lib) "0x12" (StealthKeys.viewingPublicKey Model.alice)
     = Throw (Error "ECDH computation failed: Invalid private key length: 4, expected 66")
  /\ ~ (exists e,
           computeECDH (L := Model.lib) "0x12" (StealthKeys.viewingPublicKey Model.alice)
           = Throw e
           /\ error_kind e = Some InvalidKeyLength).
Proof.
  split; [vm_compute; discriminate |].
  split; [vm_compute; reflexivity |].
  intros (e & He & Hk).
  vm_compute in He. injection He as <-. vm_compute in Hk. discriminate Hk.
Qed.



(** A record the library rejects throws inside the loop body, and the
    records around it are still scanned. *)
Example rejected_point_is_skipped :
  scan_record (L := Model.lib)
    (StealthKeys.viewingPrivateKey Model.alice) (StealthKeys.viewingPublicKey Model.alice)
    Model.record_bad_point
  = Throw (Error "ECDH computation failed: bad point")
  /\ scanStealthAddresses (L := Model.lib)
       (StealthKeys.viewingPrivateKey Model.alice) (StealthKeys.viewingPublicKey Model.alice)
       [Model.record_bad_point; createStealthMetadata Model.payment "eth" 0;
        Model.record_bad_point]
     = Ok [Model.payment].
Proof. split; vm_compute; reflexivity. Qed.

(** C7. Spending-key noninterference: [generateStealthAddress] gives the
    same outcome for any two values of [spendingPublicKey], and
    [deriveStealthSpendingKey] the same outcome for any two values of
    [spendingPrivateKey], the other arguments being equal. *)
Theorem spending_key_noninterference (L : Lib) :
  (forall viewingPublicKey spendingPublicKey1 spendingPublicKey2 ephemeralPrivateKey st,
      generateStealthAddress viewingPublicKey spendingPublicKey1 ephemeralPrivateKey st
      = generateStealthAddress viewingPublicKey spendingPublicKey2 ephemeralPrivateKey st)
  /\ (forall spendingPrivateKey1 spendingPrivateKey2 viewingPrivateKey stealthAddress
             ephemeralPublicKey viewingPublicKey,
         deriveStealthSpendingKey spendingPrivateKey1 viewingPrivateKey stealthAddress
           ephemeralPublicKey viewingPublicKey
         = deriveStealthSpendingKey spendingPrivateKey2 viewingPrivateKey stealthAddress
             ephemeralPublicKey viewingPublicKey).
Proof.
  split.
  - intros. unfold generateStealthAddress. reflexivity.
  - intros. unfold deriveStealthSpendingKey. reflexivity.
Qed.

(** C10. Scan results echo the record that matched.  Every address in the
    result of the scanner was pushed for a record of the input that passed
    the view-tag check and whose re-derived address equals its claimed
    address up to case, and it carries that same record's stored
    [stealthAddress] string as it is (not the re-derived address), its
    stored [viewTag] string as it is, and its [ephemeralPublicKey] with
    [0x] put in front when the stored string does not start with it.
    Conversely every record of the input that matches has exactly this
    entry in the result; and the result lists these entries in the order of
    the records, one for each record that reaches the push. *)
Theorem scan_results_echo_record (L : Lib)
    (viewingPrivateKey viewingPublicKey : string)
    (metas : list StealthMetadata.t) (res : list StealthAddress.t) :
  scanStealthAddresses viewingPrivateKey viewingPublicKey metas = Ok res ->
  (forall found,
      In found res ->
      exists meta claimed eph tag sharedSecret key derived,
        In meta metas
        /\ StealthMetadata.stealthAddress meta = Some claimed
        /\ StealthMetadata.ephemeralPublicKey meta = Some eph
        /\ StealthMetadata.viewTag meta = Some tag
        /\ computeECDH (with_0x viewingPrivateKey) (with_0x eph) = Ok sharedSecret
        /\ Js.toLowerCase (Js.slice 2 4 sharedSecret) = Js.strip_0x (Js.toLowerCase tag)
        /\ stealth_account sharedSecret (with_0x viewingPublicKey) = Ok (key, derived)
        /\ Js.toLowerCase derived = Js.toLowerCase claimed
        /\ StealthAddress.address found = claimed
        /\ StealthAddress.viewTag found = tag
        /\ StealthAddress.ephemeralPublicKey found
           = (if Js.startsWith "0x" eph then eph else "0x" ++ eph))
  /\ (forall meta claimed eph tag sharedSecret key derived,
         In meta metas ->
         StealthMetadata.stealthAddress meta = Some claimed -> claimed <> EmptyString ->
         StealthMetadata.ephemeralPublicKey meta = Some eph -> eph <> EmptyString ->
         StealthMetadata.viewTag meta = Some tag -> tag <> EmptyString ->
         computeECDH (with_0x viewingPrivateKey) (with_0x eph) = Ok sharedSecret ->
         Js.toLowerCase (Js.slice 2 4 sharedSecret) = Js.strip_0x (Js.toLowerCase tag) ->
         stealth_account sharedSecret (with_0x viewingPublicKey) = Ok (key, derived) ->
         Js.toLowerCase derived = Js.toLowerCase claimed ->
         In (StealthAddress.make claimed
               (if Js.startsWith "0x" eph then eph else "0x" ++ eph) tag) res)
  /\ res = map echoed
             (filter (discovers (with_0x viewingPrivateKey) (with_0x viewingPublicKey))
                metas).
Proof.
  intros Hscan. split; [| split].
  - intros found Hin.
    destruct (scan_found _ _ _ _ _ Hscan Hin) as (meta & Hmeta & Hrec).
    apply scan_record_inv in Hrec
      as (claimed & eph & tag & ss & key & derived
          & H1 & H2 & H3 & Hss & Htag & Hacc & Heq & ->).
    exists meta, claimed, eph, tag, ss, key, derived. cbn. auto 15.
  - intros meta claimed eph tag ss key derived
           Hmeta H1 N1 H2 N2 H3 N3 Hss Htag Hacc Heq.
    apply scanStealthAddresses_inv in Hscan. subst res.
    apply in_flat_map. exists meta. split; [exact Hmeta |].
    rewrite (scan_one_matched _ _ meta claimed eph tag ss key derived
               H1 N1 H2 N2 H3 N3 Hss Htag Hacc Heq).
    left. reflexivity.
  - apply scanStealthAddresses_inv in Hscan. subst res. apply flat_map_scan_one.
Qed.

Lemma scan_results_echo_record_witness :
  (forall found,
      In found
        [StealthAddress.make
           "0X135f3b4473ca5c66edc815d1ede4a59c9034f81d"
           "0x0200000000000000000000000000000000000000000000000000000000000000b8"
           "0X87";
         Model.payment] ->
      exists meta claimed eph tag sharedSecret key derived,
        In meta [Model.record_wrong_address; Model.record_recased;
                 Model.record_without_key;
                 createStealthMetadata Model.payment "eth" 0]
        /\ StealthMetadata.stealthAddress meta = Some claimed
        /\ StealthMetadata.ephemeralPublicKey meta = Some eph
        /\ StealthMetadata.viewTag meta = Some tag
        /\ computeECDH (L := Model.lib)
             (with_0x (StealthKeys.viewingPrivateKey Model.alice)) (with_0x eph)
           = Ok sharedSecret
        /\ Js.toLowerCase (Js.slice 2 4 sharedSecret) = Js.strip_0x (Js.toLowerCase tag)
        /\ stealth_account (L := Model.lib) sharedSecret
             (with_0x (StealthKeys.viewingPublicKey Model.alice)) = Ok (key, derived)
        /\ Js.toLowerCase derived = Js.toLowerCase claimed
        /\ StealthAddress.address found = claimed
        /\ StealthAddress.viewTag found = tag
        /\ StealthAddress.ephemeralPublicKey found
           = (if Js.startsWith "0x" eph then eph else "0x" ++ eph))
  /\ (forall meta claimed eph tag sharedSecret key derived,
         In meta [Model.record_wrong_address; Model.record_recased;
                  Model.record_without_key;
                  createStealthMetadata Model.payment "eth" 0] ->
         StealthMetadata.stealthAddress meta = Some claimed -> claimed <> EmptyString ->
         StealthMetadata.ephemeralPublicKey meta = Some eph -> eph <> EmptyString ->
         StealthMetadata.viewTag meta = Some tag -> tag <> EmptyString ->
         computeECDH (L := Model.lib)
           (with_0x (StealthKeys.viewingPrivateKey Model.alice)) (with_0x eph)
         = Ok sharedSecret ->
         Js.toLowerCase (Js.slice 2 4 sharedSecret) = Js.strip_0x (Js.toLowerCase tag) ->
         stealth_account (L := Model.lib) sharedSecret
           (with_0x (StealthKeys.viewingPublicKey Model.alice)) = Ok (key, derived) ->
         Js.toLowerCase derived = Js.toLowerCase claimed ->
         In (StealthAddress.make claimed
               (if Js.startsWith "0x" eph then eph else "0x" ++ eph) tag)
            [StealthAddress.make
               "0X135f3b4473ca5c66edc815d1ede4a59c9034f81d"
               "0x0200000000000000000000000000000000000000000000000000000000000000b8"
               "0X87";
             Model.payment])
  /\ [StealthAddress.make
        "0X135f3b4473ca5c66edc815d1ede4a59c9034f81d"
        "0x0200000000000000000000000000000000000000000000000000000000000000b8"
        "0X87";
      Model.payment]
     = map echoed
         (filter (discovers (L := Model.lib)
                    (with_0x (StealthKeys.viewingPrivateKey Model.alice))
                    (with_0x (StealthKeys.viewingPublicKey Model.alice)))
            [Model.record_wrong_address; Model.record_recased;
             Model.record_without_key;
             createStealthMetadata Model.payment "eth" 0]).
Proof.
  apply (scan_results_echo_record Model.lib
           (StealthKeys.viewingPrivateKey Model.alice)
           (StealthKeys.viewingPublicKey Model.alice)
           [Model.record_wrong_address; Model.record_recased;
            Model.record_without_key;
            createStealthMetadata Model.payment "eth" 0]
           [StealthAddress.make
              "0X135f3b4473ca5c66edc815d1ede4a59c9034f81d"
              "0x0200000000000000000000000000000000000000000000000000000000000000b8"
              "0X87";
            Model.payment]).
  vm_compute. reflexivity.
Defined.

(** The stored strings come back, not the re-derived ones: for the record
    stored with capitals the re-derived address differs from the returned
    one, and the record with the same key and tag but another address
    contributes nothing. *)
Example echo_is_of_the_matched_record :
  stealth_account (L := Model.lib) Model.payment_secret
    (StealthKeys.viewingPublicKey Model.alice)
  = Ok (Model.payment_key, "0x135F3B4473CA5C66EDC815D1EDE4A59C9034F81D")
  /\ scanStealthAddresses (L := Model.lib)
       (StealthKeys.viewingPrivateKey Model.alice)
       (StealthKeys.viewingPublicKey Model.alice)
       [Model.record_wrong_address; Model.record_recased]
     = Ok [StealthAddress.make
             "0X135f3b4473ca5c66edc815d1ede4a59c9034f81d"
             "0x0200000000000000000000000000000000000000000000000000000000000000b8"
             "0X87"].
Proof. split; vm_compute; reflexivity. Qed.

(** C9, as the code has it.  The four keys returned by
    [generateStealthKeys], the ephemeral public key returned by
    [generateStealthAddress] and the key returned by
    [deriveStealthSpendingKey] are lowercase hex with a [0x] prefix.  The
    view tag returned by [generateStealthAddress] is two lowercase hex
    digits without a prefix, and its address is the account address as the
    account library writes it, [0x] and 40 hex digits of either case.  An
    address returned by the scanner carries the strings of the record it
    was pushed for, a record whose re-derived address equals its claimed
    address up to case: the stored [stealthAddress] and [viewTag] as they
    are, and the stored [ephemeralPublicKey] with [0x] put in front when
    absent, so that the returned key starts with [0x]. *)
Theorem output_encodings (L : Lib) (HL : LibLaws L) :
  (forall st K st1,
      generateStealthKeys st = (Ok K, st1) ->
      canonical_hex_bytes 32 (StealthKeys.spendingPrivateKey K) = true
      /\ canonical_hex_bytes 32 (StealthKeys.viewingPrivateKey K) = true
      /\ canonical_hex_bytes 33 (StealthKeys.spendingPublicKey K) = true
      /\ canonical_hex_bytes 33 (StealthKeys.viewingPublicKey K) = true)
  /\ (forall viewingPublicKey sp eph st S st2,
         generateStealthAddress viewingPublicKey sp eph st = (Ok S, st2) ->
         canonical_hex_bytes 33 (StealthAddress.ephemeralPublicKey S) = true
         /\ is_address (StealthAddress.address S) = true
         /\ String.length (StealthAddress.viewTag S) = 2
         /\ all_chars is_lower_hex_digit (StealthAddress.viewTag S) = true
         /\ Js.startsWith "0x" (StealthAddress.viewTag S) = false)
  /\ (forall spendingPrivateKey viewingPrivateKey stealthAddress ephemeralPublicKey
             viewingPublicKey key,
         deriveStealthSpendingKey spendingPrivateKey viewingPrivateKey stealthAddress
           ephemeralPublicKey viewingPublicKey = Ok key ->
         canonical_hex_bytes 32 key = true)
  /\ (forall viewingPrivateKey viewingPublicKey metas res found,
         scanStealthAddresses viewingPrivateKey viewingPublicKey metas = Ok res ->
         In found res ->
         exists meta eph sharedSecret key derived,
           In meta metas
           /\ StealthMetadata.stealthAddress meta = Some (StealthAddress.address found)
           /\ StealthMetadata.viewTag meta = Some (StealthAddress.viewTag found)
           /\ StealthMetadata.ephemeralPublicKey meta = Some eph
           /\ StealthAddress.ephemeralPublicKey found
              = (if Js.startsWith "0x" eph then eph else "0x" ++ eph)
           /\ Js.startsWith "0x" (StealthAddress.ephemeralPublicKey found) = true
           /\ computeECDH (with_0x viewingPrivateKey) (with_0x eph) = Ok sharedSecret
           /\ stealth_account sharedSecret (with_0x viewingPublicKey) = Ok (key, derived)
           /\ Js.toLowerCase derived
              = Js.toLowerCase (StealthAddress.address found)).
Proof.
  split; [| split; [| split]].
  - intros st K st1 HK.
    apply generateStealthKeys_inv in HK as (Hsp & Hvp & Hspub & Hvpub).
    rewrite Hsp at 1. rewrite Hvp at 1.
    repeat split; try apply (random_private_key_shape HL);
      eapply (derivePublicKey_shape HL); eassumption.
  - intros vpub sp eph st S st2 HS.
    apply generateStealthAddress_inv in HS as (ek & ss & key & _ & HE & Hss & Hacc & Htag).
    destruct (view_tag_of_hash ss (computeECDH_shape HL _ _ _ Hss)) as (H1 & H2 & H3 & _).
    destruct (stealth_account_address HL _ _ _ _ Hacc) as [Haddr _].
    rewrite Htag. repeat split; try assumption.
    + exact (derivePublicKey_shape HL _ _ HE).
    + exact (address_shape HL _ _ Haddr).
  - intros sp vp addr eph vpub key H.
    apply deriveStealthSpendingKey_inv in H as (ss & vpk & derived & _ & _ & Hacc & _).
    now destruct (stealth_account_address HL _ _ _ _ Hacc).
  - intros vp vpub metas res found Hscan Hin.
    destruct (scan_found _ _ _ _ _ Hscan Hin) as (meta & Hmeta & Hrec).
    apply scan_record_inv in Hrec
      as (claimed & eph & tag & ss & key & derived
          & H1 & H2 & H3 & Hss & _ & Hacc & Heq & ->).
    exists meta, eph, ss, key, derived. cbn.
    repeat split; try assumption. apply with_0x_startsWith.
Qed.

Lemma output_encodings_witness :
  (canonical_hex_bytes 33 (StealthAddress.ephemeralPublicKey Model.payment) = true
   /\ is_address (StealthAddress.address Model.payment) = true
   /\ String.length (StealthAddress.viewTag Model.payment) = 2
   /\ all_chars is_lower_hex_digit (StealthAddress.viewTag Model.payment) = true
   /\ Js.startsWith "0x" (StealthAddress.viewTag Model.payment) = false)
  /\ exists meta eph sharedSecret key derived,
       In meta [Model.record_wrong_address; Model.record_recased]
       /\ StealthMetadata.stealthAddress meta
          = Some "0X135f3b4473ca5c66edc815d1ede4a59c9034f81d"
       /\ StealthMetadata.viewTag meta = Some "0X87"
       /\ StealthMetadata.ephemeralPublicKey meta = Some eph
       /\ "0x0200000000000000000000000000000000000000000000000000000000000000b8"
          = (if Js.startsWith "0x" eph then eph else "0x" ++ eph)
       /\ Js.startsWith "0x"
            "0x0200000000000000000000000000000000000000000000000000000000000000b8" = true
       /\ computeECDH (L := Model.lib)
            (with_0x (StealthKeys.viewingPrivateKey Model.alice)) (with_0x eph)
          = Ok sharedSecret
       /\ stealth_account (L := Model.lib) sharedSecret
            (with_0x (StealthKeys.viewingPublicKey Model.alice)) = Ok (key, derived)
       /\ Js.toLowerCase derived
          = Js.toLowerCase "0X135f3b4473ca5c66edc815d1ede4a59c9034f81d".
Proof.
  split.
  - apply (proj1 (proj2 (output_encodings Model.lib model_laws))
             (StealthKeys.viewingPublicKey Model.alice) None None 2 Model.payment 3).
    vm_compute. reflexivity.
  - apply (proj2 (proj2 (proj2 (output_encodings Model.lib model_laws)))
             (StealthKeys.viewingPrivateKey Model.alice)
             (StealthKeys.viewingPublicKey Model.alice)
             [Model.record_wrong_address; Model.record_recased]
             [StealthAddress.make
                "0X135f3b4473ca5c66edc815d1ede4a59c9034f81d"
                "0x0200000000000000000000000000000000000000000000000000000000000000b8"
                "0X87"]
             (StealthAddress.make
                "0X135f3b4473ca5c66edc815d1ede4a59c9034f81d"
                "0x0200000000000000000000000000000000000000000000000000000000000000b8"
                "0X87")).
    + vm_compute. reflexivity.
    + left. reflexivity.
Defined.

(** C9, as stated, fails, and not by the choice of library.  In the run
    below the view tag of the generated address is [87]: two digits, no
    [0x].  With any library that satisfies the laws, the view tag of every
    generated address lacks the prefix, and scanning the record of a
    generated address hands that unprefixed view tag back. *)
Lemma canonical_output_encoding_counterexample :
  (generateStealthAddress (L := Model.lib)
     (StealthKeys.viewingPublicKey Model.alice) None None 2 = (Ok Model.payment, 3)
   /\ StealthAddress.viewTag Model.payment = "87"
   /\ canonical_hex (StealthAddress.viewTag Model.payment) = false)
  /\ (forall (L : Lib), LibLaws L ->
      forall viewingPublicKey sp eph st S st2,
        generateStealthAddress viewingPublicKey sp eph st = (Ok S, st2) ->
        canonical_hex (StealthAddress.viewTag S) = false)
  /\ (forall (L : Lib), LibLaws L ->
      forall st K st1 sp eph st' S st2 network now,
        generateStealthKeys st = (Ok K, st1) ->
        generateStealthAddress (StealthKeys.viewingPublicKey K) sp eph st' = (Ok S, st2) ->
        exists found,
          scanStealthAddresses (StealthKeys.viewingPrivateKey K)
            (StealthKeys.viewingPublicKey K) [createStealthMetadata S network now]
          = Ok [found]
          /\ canonical_hex (StealthAddress.viewTag found) = false).
Proof.
  assert (Hgen : forall (L : Lib), LibLaws L ->
            forall viewingPublicKey sp eph st S st2,
              generateStealthAddress viewingPublicKey sp eph st = (Ok S, st2) ->
              canonical_hex (StealthAddress.viewTag S) = false).
  { intros L HL v sp eph st S st2 HS.
    apply generateStealthAddress_inv in HS as (ek & ss & key & _ & _ & Hss & _ & Htag).
    destruct (view_tag_of_hash ss (computeECDH_shape HL _ _ _ Hss)) as (_ & _ & Hp & _).
    unfold canonical_hex. now rewrite Htag, Hp. }
  split; [| split].
  - split; [vm_compute; reflexivity |].
    split; [reflexivity | vm_compute; reflexivity].
  - exact Hgen.
  - intros L HL st K st1 sp eph st' S st2 network now HK HS.
    exists S. split; [| exact (Hgen L HL _ sp eph st' S st2 HS)].
    pose proof (roundtrip_record HL st K st1 sp eph st' S st2 network now HK HS) as Hrec.
    destruct (generateStealthKeys_inv st K st1 HK) as (_ & Hvpriv & _ & Hvpub).
    rewrite scanStealthAddresses_flat_map.
    + cbn [flat_map]. unfold scan_one. now rewrite Hrec.
    + pose proof (random_private_key_shape HL (Datatypes.S st)) as Hshape.
      rewrite <- Hvpriv in Hshape. now apply canonical_hex_bytes_with_0x in Hshape.
    + apply derivePublicKey_inv in Hvpub as (k & _ & ->).
      exact (falsy_false_of_startsWith _ (uint8ArrayToHex_startsWith _)).
Qed.

(* ================================================================== *)
(** * Further properties of the code *)

Section HexFacts.

(** The value [parseInt] reads from two hex digits prints back as the two
    digits in lowercase. *)
Lemma pair_reencode (a b : ascii) :
  is_hex_digit a = true -> is_hex_digit b = true ->
  hex2 (Js.ToUint8 (Js.parseInt16 (String a (String b EmptyString))))
  = String (Js.lower_char a) (String (Js.lower_char b) EmptyString).
Proof.
  intros Ha Hb.
  destruct a as [[] [] [] [] [] [] [] []]; try discriminate Ha;
    destruct b as [[] [] [] [] [] [] [] []]; try discriminate Hb; reflexivity.
Qed.

Lemma decode_pairs_reencode (body : string) :
  all_chars is_hex_digit body = true ->
  Nat.even (String.length body) = true ->
  Js.join (map hex2 (decode_pairs body)) = Js.toLowerCase body.
Proof.
  induction body as [| a | a b r IH] using string_pair_ind; intros Hall Heven.
  - reflexivity.
  - discriminate Heven.
  - cbn [all_chars] in Hall.
    apply andb_prop in Hall as [Ha Hall]. apply andb_prop in Hall as [Hb Hall].
    cbn [decode_pairs map Js.join Js.toLowerCase].
    rewrite pair_reencode by assumption. cbn [append].
    now rewrite IH.
Qed.

Lemma toLowerCase_append (s t : string) :
  Js.toLowerCase (s ++ t) = Js.toLowerCase s ++ Js.toLowerCase t.
Proof. induction s as [|c s IH]; cbn; [reflexivity | now rewrite IH]. Qed.

Lemma toLowerCase_length (s : string) :
  String.length (Js.toLowerCase s) = String.length s.
Proof. induction s as [|c s IH]; cbn; [reflexivity | now rewrite IH]. Qed.

Lemma hex_run_spec (n : nat) (s : string) :
  hex_run n s = true <-> String.length s = n /\ all_chars is_hex_digit s = true.
Proof.
  revert s; induction n as [|n IH]; intros [|c r]; cbn [hex_run String.length all_chars].
  - tauto.
  - split; [discriminate | intros [H _]; discriminate H].
  - split; [discriminate | intros [H _]; discriminate H].
  - rewrite andb_true_iff, IH, andb_true_iff. split.
    + intros (Hc & Hlen & Hall). now rewrite Hlen.
    + intros (Hlen & Hc & Hall). injection Hlen as Hlen. tauto.
Qed.

Lemma lower_hex_is_hex (s : string) :
  all_chars is_lower_hex_digit s = true -> all_chars is_hex_digit s = true.
Proof.
  induction s as [|c s IH]; [reflexivity |]. cbn [all_chars].
  intros H. apply andb_prop in H as [Hc Hs].
  rewrite IH by assumption. unfold is_hex_digit. now rewrite Hc.
Qed.

Lemma lower_char_keeps_hex (c : ascii) :
  is_hex_digit c = true -> is_hex_digit (Js.lower_char c) = true.
Proof. destruct c as [[] [] [] [] [] [] [] []]; cbn; intros H; try discriminate; reflexivity. Qed.

Lemma toLowerCase_keeps_hex (s : string) :
  all_chars is_hex_digit s = true -> all_chars is_hex_digit (Js.toLowerCase s) = true.
Proof.
  induction s as [|c s IH]; [reflexivity |]. cbn [all_chars Js.toLowerCase].
  intros H. apply andb_prop in H as [Hc Hs]. now rewrite lower_char_keeps_hex, IH.
Qed.

End HexFacts.

Section ValidatorFacts.

Lemma isValidPublicKey_spec (publicKey : string) :
  isValidPublicKey publicKey = true <->
  (let hexStr :=
     if Js.startsWith "0x" publicKey then Js.slice_from 2 publicKey else publicKey in
   String.length hexStr = 66 /\ all_chars is_hex_digit hexStr = true).
Proof. unfold isValidPublicKey. apply hex_run_spec. Qed.

Lemma isValidStealthAddress_spec (address : string) :
  isValidStealthAddress address = true <-> is_address address = true.
Proof.
  unfold is_address. split.
  - intros H. unfold isValidStealthAddress in H.
    destruct address as [|a s]; [discriminate H |].
    destruct a as [[] [] [] [] [] [] [] []]; try discriminate H.
    destruct s as [|b r]; [discriminate H |].
    destruct b as [[] [] [] [] [] [] [] []]; try discriminate H.
    apply hex_run_spec in H as [Hlen Hall].
    change (String "0" (String "x" r)) with ("0x" ++ r).
    rewrite startsWith_0x, slice_from_0x, Hall, length_append, Hlen. reflexivity.
  - intros H. apply andb_prop in H as [H Hlen]. apply andb_prop in H as [Hp Hall].
    apply startsWith_0x_inv in Hp as [t ->]. rewrite slice_from_0x in Hall.
    apply Nat.eqb_eq in Hlen. rewrite length_append in Hlen. cbn in Hlen.
    cbn [append isValidStealthAddress]. apply hex_run_spec. split; [lia | exact Hall].
Qed.

Lemma canonical_hex_bytes_valid_key (s : string) :
  canonical_hex_bytes 33 s = true -> isValidPublicKey s = true.
Proof.
  intros H. apply canonical_hex_bytes_inv in H as (t & -> & Hlen & Hall).
  apply isValidPublicKey_spec. rewrite startsWith_0x, slice_from_0x.
  split; [exact Hlen | now apply lower_hex_is_hex].
Qed.

(** Lowercasing a well-formed address keeps it well formed. *)
Lemma is_address_toLowerCase (a : string) :
  is_address a = true -> is_address (Js.toLowerCase a) = true.
Proof.
  unfold is_address. intros H.
  apply andb_prop in H as [H Hlen]. apply andb_prop in H as [Hp Hall].
  apply startsWith_0x_inv in Hp as [t ->]. rewrite slice_from_0x in Hall.
  rewrite toLowerCase_append. change (Js.toLowerCase "0x") with "0x".
  rewrite startsWith_0x, slice_from_0x, toLowerCase_keeps_hex by assumption.
  rewrite length_append, toLowerCase_length. rewrite length_append in Hlen.
  exact Hlen.
Qed.

End ValidatorFacts.

Section ScannerFacts.

Context {L : Lib}.

Lemma falsy_with_0x (s : string) : Js.falsy (with_0x s) = false.
Proof. apply falsy_false_of_startsWith, with_0x_startsWith. Qed.

Lemma falsy_true (s : string) : Js.falsy s = true <-> s = EmptyString.
Proof. destruct s; cbn; split; intros H; try reflexivity; discriminate H. Qed.

(** [computeECDH] adds a missing [0x] itself. *)
Lemma computeECDH_with_0x (privateKey publicKey : string) :
  Js.falsy privateKey = false -> Js.falsy publicKey = false ->
  computeECDH (with_0x privateKey) (with_0x publicKey) = computeECDH privateKey publicKey.
Proof.
  intros H1 H2. unfold computeECDH.
  now rewrite !falsy_with_0x, !with_0x_idem, H1, H2.
Qed.

End ScannerFacts.

Lemma Throw_inj (A : Type) (e e' : JsError) : @Throw A e = Throw e' -> e = e'.
Proof. intros H. now injection H. Qed.

Section MoreCoreFacts.

Context {L : Lib}.

Lemma stealth_account_bind (ss vpub : string) (A : Type)
      (k : string -> string -> result A) :
  (let* sharedSecretBytes := hexToBytes ss in
   let* viewingPubBytes := hexToBytes vpub in
   let combined := (sharedSecretBytes ++ viewingPubBytes)%list in
   let* stealthPrivateKey := keccak256 (toHex combined) in
   let* address := privateKeyToAccount stealthPrivateKey in
   k stealthPrivateKey address)
  = bind (stealth_account ss vpub) (fun p => k (fst p) (snd p)).
Proof.
  unfold stealth_account.
  destruct (hexToBytes ss) as [b1|]; [| reflexivity].
  destruct (hexToBytes vpub) as [b2|]; [| reflexivity].
  cbn [bind].
  destruct (keccak256 (toHex (b1 ++ b2))) as [key|]; [| reflexivity].
  cbn [bind].
  destruct (privateKeyToAccount key) as [a|]; reflexivity.
Qed.

(** Whether a record with its three fields present is discovered. *)
Lemma discovers_present (viewingPriv viewingPub : string) (meta : StealthMetadata.t)
      (claimed eph tag : string) :
  StealthMetadata.stealthAddress meta = Some claimed -> claimed <> EmptyString ->
  StealthMetadata.ephemeralPublicKey meta = Some eph -> eph <> EmptyString ->
  StealthMetadata.viewTag meta = Some tag -> tag <> EmptyString ->
  discovers viewingPriv viewingPub meta
  = match computeECDH viewingPriv (with_0x eph) with
    | Ok sharedSecret =>
        if String.eqb (Js.toLowerCase (Js.slice 2 4 sharedSecret))
                      (Js.strip_0x (Js.toLowerCase tag))
        then match stealth_account sharedSecret viewingPub with
             | Ok (_, derived) =>
                 String.eqb (Js.toLowerCase derived) (Js.toLowerCase claimed)
             | Throw _ => false
             end
        else false
    | Throw _ => false
    end.
Proof.
  intros H1 N1 H2 N2 H3 N3. unfold discovers, scan_record.
  rewrite H1, H2, H3, !or_default_Some. cbn [Js.missing].
  assert (Hf : forall s, s <> EmptyString -> Js.falsy s = false).
  { intros s Hs. destruct (Js.falsy s) eqn:E; [| reflexivity].
    now apply falsy_true in E. }
  rewrite (Hf _ N1), (Hf _ N2), (Hf _ N3). cbn [orb].
  destruct (computeECDH viewingPriv (with_0x eph)) as [ss|]; [| reflexivity].
  cbn [bind].
  destruct (String.eqb (Js.toLowerCase (Js.slice 2 4 ss))
                       (Js.strip_0x (Js.toLowerCase tag))); [| reflexivity].
  cbn [negb]. rewrite stealth_account_bind.
  destruct (stealth_account ss viewingPub) as [[key derived]|]; [| reflexivity].
  cbn [bind fst snd].
  now destruct (String.eqb (Js.toLowerCase derived) (Js.toLowerCase claimed)).
Qed.

End MoreCoreFacts.

Section RecoveryFacts.

Context {L : Lib} (HL : LibLaws L).

(** For generated keys and a generated address: the secret the receiver
    computes and the account derived from it. *)
Lemma receiver_side (st : nat) (K : StealthKeys.t) (st1 : nat)
      (sp eph : option string) (st' : nat) (S : StealthAddress.t) (st2 : nat) :
  generateStealthKeys st = (Ok K, st1) ->
  generateStealthAddress (StealthKeys.viewingPublicKey K) sp eph st' = (Ok S, st2) ->
  exists sharedSecret key,
    computeECDH (StealthKeys.viewingPrivateKey K) (StealthAddress.ephemeralPublicKey S)
    = Ok sharedSecret
    /\ stealth_account sharedSecret (StealthKeys.viewingPublicKey K)
       = Ok (key, StealthAddress.address S)
    /\ StealthKeys.viewingPublicKey K <> EmptyString.
Proof.
  intros HK HS.
  apply generateStealthKeys_inv in HK as (_ & Hvpriv & _ & Hvpub).
  apply generateStealthAddress_inv in HS as (ek & ss & key & _ & HE & Hss & Hacc & _).
  pose proof (random_private_key_shape HL (Datatypes.S st)) as Hshape.
  rewrite <- Hvpriv in Hshape.
  apply canonical_hex_bytes_with_0x in Hshape as (Hw & Hlen & _).
  destruct (derivePublicKey_inv _ _ Hvpub) as (kv & _ & Hpub).
  assert (Hwpub : with_0x (StealthKeys.viewingPublicKey K) = StealthKeys.viewingPublicKey K)
    by (rewrite Hpub; apply uint8ArrayToHex_with_0x).
  rewrite Hwpub in *.
  exists ss, key. split; [| split; [exact Hacc |]].
  - apply (ecdh_agree HL ek _ (StealthAddress.ephemeralPublicKey S)
             (StealthKeys.viewingPublicKey K)); auto.
    rewrite Hw. exact Hlen.
  - rewrite Hpub, uint8ArrayToHex_unfold. discriminate.
Qed.

End RecoveryFacts.

Section PipelineFacts.

Context {L : Lib} (HL : LibLaws L).

Lemma generated_keys_present (st : nat) (K : StealthKeys.t) (st1 : nat) :
  generateStealthKeys st = (Ok K, st1) ->
  Js.falsy (StealthKeys.viewingPrivateKey K) = false
  /\ Js.falsy (StealthKeys.viewingPublicKey K) = false.
Proof.
  intros HK. apply generateStealthKeys_inv in HK as (_ & Hvpriv & _ & Hvpub). split.
  - pose proof (random_private_key_shape HL (Datatypes.S st)) as Hshape.
    rewrite <- Hvpriv in Hshape. now apply canonical_hex_bytes_with_0x in Hshape.
  - apply derivePublicKey_inv in Hvpub as (k & _ & ->).
    exact (falsy_false_of_startsWith _ (uint8ArrayToHex_startsWith _)).
Qed.

(** The records of payments generated for the same keys are all discovered. *)
Lemma scan_payments (st : nat) (K : StealthKeys.t) (st1 : nat)
      (network : string) (now : Z) (payments : list StealthAddress.t) :
  generateStealthKeys st = (Ok K, st1) ->
  Forall (fun S => exists sp eph st' st2,
              generateStealthAddress (StealthKeys.viewingPublicKey K) sp eph st'
              = (Ok S, st2)) payments ->
  flat_map (scan_one (with_0x (StealthKeys.viewingPrivateKey K))
                     (with_0x (StealthKeys.viewingPublicKey K)))
           (map (fun S => createStealthMetadata S network now) payments)
  = payments.
Proof.
  intros HK Hall. induction Hall as [|S payments (sp & eph & st' & st2 & HS) _ IH].
  - reflexivity.
  - cbn [map flat_map]. rewrite IH. unfold scan_one.
    now rewrite (roundtrip_record HL st K st1 sp eph st' S st2 network now HK HS).
Qed.

End PipelineFacts.

Section MalformedHex.

Lemma parseInt16_not_numeric (a : ascii) (r : string) :
  not_numeric a = true -> Js.ToUint8 (Js.parseInt16 (String a r)) = x00.
Proof.
  intros H.
  destruct a as [[] [] [] [] [] [] [] []]; try discriminate H; reflexivity.
Qed.

Lemma decode_pairs_app (s t : string) :
  Nat.even (String.length s) = true ->
  decode_pairs (s ++ t) = (decode_pairs s ++ decode_pairs t)%list.
Proof.
  induction s as [| a | a b r IH] using string_pair_ind; intros Heven.
  - reflexivity.
  - discriminate Heven.
  - cbn [append decode_pairs app]. f_equal. apply IH. exact Heven.
Qed.

Lemma join_hex2_app (bytes1 bytes2 : list byte) :
  Js.join (map hex2 (bytes1 ++ bytes2))
  = Js.join (map hex2 bytes1) ++ Js.join (map hex2 bytes2).
Proof.
  induction bytes1 as [|b r IH]; [reflexivity |].
  cbn [app map Js.join]. rewrite IH. generalize (hex2 b) as h.
  intros h. induction h as [|c h IHh]; cbn; [reflexivity | now rewrite IHh].
Qed.

End MalformedHex.

(** X1. Hex round trip, bytes first: decoding what [uint8ArrayToHex]
    printed gives the bytes back, so two byte arrays with the same hex
    string are equal, and the string has two characters per byte after its
    [0x], all of them lowercase hex digits. *)
Theorem hex_encode_decode (bytes : list byte) :
  hexToUint8Array (uint8ArrayToHex bytes) = bytes
  /\ (forall bytes', uint8ArrayToHex bytes = uint8ArrayToHex bytes' -> bytes = bytes')
  /\ String.length (uint8ArrayToHex bytes) = 2 + 2 * List.length bytes
  /\ canonical_hex (uint8ArrayToHex bytes) = true.
Proof.
  split; [apply hexToUint8Array_uint8ArrayToHex |].
  split.
  - intros bytes' H.
    rewrite <- (hexToUint8Array_uint8ArrayToHex bytes),
            <- (hexToUint8Array_uint8ArrayToHex bytes').
    now rewrite H.
  - split; [apply uint8ArrayToHex_length | apply uint8ArrayToHex_canonical].
Qed.

(** X2. Hex round trip, string first: for a string made of an even number
    of hex digits of either case, with or without [0x] in front, decoding
    and printing again gives the string lowercased with its [0x]. *)
Theorem hex_decode_encode (hex : string) :
  let body := if Js.startsWith "0x" hex then Js.slice_from 2 hex else hex in
  all_chars is_hex_digit body = true ->
  Nat.even (String.length body) = true ->
  uint8ArrayToHex (hexToUint8Array hex) = Js.toLowerCase (with_0x hex).
Proof.
  intros body Hall Heven. subst body.
  rewrite hexToUint8Array_decode, uint8ArrayToHex_unfold. unfold with_0x.
  destruct (Js.startsWith "0x" hex) eqn:E.
  - apply startsWith_0x_inv in E as [t ->]. rewrite slice_from_0x in *.
    rewrite decode_pairs_reencode by assumption.
    now rewrite toLowerCase_append.
  - rewrite decode_pairs_reencode by assumption.
    now rewrite toLowerCase_append.
Qed.

Lemma hex_decode_encode_witness :
  uint8ArrayToHex (hexToUint8Array "0xAbCdEf0123") = Js.toLowerCase (with_0x "0xAbCdEf0123").
Proof.
  apply (hex_decode_encode "0xAbCdEf0123"); reflexivity.
Defined.

(** X3. What [hexToUint8Array] tolerates: it never fails; it returns half
    as many bytes as there are characters after the optional [0x], rounded
    down, so a last odd character is dropped; and adding the [0x] to a
    string that lacks it does not change the bytes. *)
Theorem hexToUint8Array_tolerant (hex : string) :
  List.length (hexToUint8Array hex)
  = String.length (if Js.startsWith "0x" hex then Js.slice_from 2 hex else hex) / 2
  /\ hexToUint8Array (with_0x hex) = hexToUint8Array hex
  /\ (forall c, Js.startsWith "0x" hex = false ->
                Nat.even (String.length hex) = true ->
                hexToUint8Array (hex ++ String c EmptyString) = hexToUint8Array hex).
Proof.
  split; [apply hexToUint8Array_length |].
  split; [apply hexToUint8Array_with_0x |].
  intros c Hp Heven.
  rewrite !hexToUint8Array_decode, Hp.
  assert (Hp' : Js.startsWith "0x" (hex ++ String c EmptyString) = false).
  { destruct (Js.startsWith "0x" (hex ++ String c EmptyString)) eqn:E; [| reflexivity].
    apply startsWith_0x_inv in E as [t Ht].
    destruct hex as [|a [|b r]]; try discriminate Heven.
    - destruct t; discriminate Ht.
    - cbn in Ht. injection Ht as -> -> _.
      unfold Js.startsWith in Hp. rewrite (proj2 (prefix_correct "0x" _)) in Hp;
        [discriminate Hp | destruct r; reflexivity]. }
  rewrite Hp'. clear Hp Hp'.
  induction hex as [| a | a b r IH] using string_pair_ind.
  - reflexivity.
  - discriminate Heven.
  - cbn [append decode_pairs]. f_equal. apply IH. exact Heven.
Qed.

Lemma hexToUint8Array_tolerant_witness :
  hexToUint8Array ("01ff" ++ "a") = hexToUint8Array "01ff".
Proof.
  apply (proj2 (proj2 (hexToUint8Array_tolerant "01ff")) "a"%char); reflexivity.
Defined.

(** X4. A key accepted by [isValidPublicKey] is 66 hex digits with or
    without [0x]: it decodes to 33 bytes, has with its prefix the 68
    characters that [computeECDH] and [generateStealthAddress] ask of a
    compressed key, and printing its bytes gives it back in lowercase. *)
Theorem isValidPublicKey_sound (publicKey : string) :
  isValidPublicKey publicKey = true ->
  List.length (hexToUint8Array publicKey) = 33
  /\ String.length (with_0x publicKey) = 68
  /\ uint8ArrayToHex (hexToUint8Array publicKey) = Js.toLowerCase (with_0x publicKey).
Proof.
  intros H. apply isValidPublicKey_spec in H. cbv zeta in H. destruct H as [Hlen Hall].
  assert (Heven : Nat.even (String.length
            (if Js.startsWith "0x" publicKey then Js.slice_from 2 publicKey else publicKey))
          = true) by now rewrite Hlen.
  split; [rewrite hexToUint8Array_length, Hlen; reflexivity |].
  split.
  - unfold with_0x. destruct (Js.startsWith "0x" publicKey) eqn:E.
    + apply startsWith_0x_inv in E as [t ->]. rewrite slice_from_0x in Hlen.
      rewrite length_append, Hlen. reflexivity.
    + rewrite length_append, Hlen. reflexivity.
  - rewrite hexToUint8Array_decode, uint8ArrayToHex_unfold,
      decode_pairs_reencode by assumption.
    unfold with_0x. destruct (Js.startsWith "0x" publicKey) eqn:E.
    + apply startsWith_0x_inv in E as [t ->]. rewrite slice_from_0x.
      now rewrite toLowerCase_append.
    + now rewrite toLowerCase_append.
Qed.

Lemma isValidPublicKey_sound_witness :
  List.length (hexToUint8Array
     "02000000000000000000000000000000000000000000000000000000000000004C") = 33
  /\ String.length (with_0x
       "02000000000000000000000000000000000000000000000000000000000000004C") = 68
  /\ uint8ArrayToHex (hexToUint8Array
       "02000000000000000000000000000000000000000000000000000000000000004C")
     = Js.toLowerCase (with_0x
         "02000000000000000000000000000000000000000000000000000000000000004C").
Proof.
  apply (isValidPublicKey_sound
           "02000000000000000000000000000000000000000000000000000000000000004C").
  reflexivity.
Defined.

(** X5. The public keys the SDK hands out pass [isValidPublicKey]: what
    [derivePublicKey] returns, both public keys of [generateStealthKeys] and
    the ephemeral public key of [generateStealthAddress]. *)
Theorem produced_public_keys_are_valid (L : Lib) (HL : LibLaws L) :
  (forall privateKey pub,
      derivePublicKey privateKey = Ok pub -> isValidPublicKey pub = true)
  /\ (forall st K st1,
         generateStealthKeys st = (Ok K, st1) ->
         isValidPublicKey (StealthKeys.spendingPublicKey K) = true
         /\ isValidPublicKey (StealthKeys.viewingPublicKey K) = true)
  /\ (forall viewingPublicKey sp eph st S st2,
         generateStealthAddress viewingPublicKey sp eph st = (Ok S, st2) ->
         isValidPublicKey (StealthAddress.ephemeralPublicKey S) = true).
Proof.
  assert (Hd : forall privateKey pub,
             derivePublicKey privateKey = Ok pub -> isValidPublicKey pub = true).
  { intros k pub H. apply canonical_hex_bytes_valid_key.
    exact (derivePublicKey_shape HL k pub H). }
  split; [exact Hd |]. split.
  - intros st K st1 HK.
    apply generateStealthKeys_inv in HK as (_ & _ & Hs & Hv).
    split; eapply Hd; eassumption.
  - intros v sp eph st S st2 HS.
    apply generateStealthAddress_inv in HS as (ek & ss & key & _ & HE & _).
    eapply Hd; eassumption.
Qed.

Lemma produced_public_keys_are_valid_witness :
  isValidPublicKey (StealthKeys.spendingPublicKey Model.alice) = true
  /\ isValidPublicKey (StealthKeys.viewingPublicKey Model.alice) = true.
Proof.
  apply (proj1 (proj2 (produced_public_keys_are_valid Model.lib model_laws))
           0 Model.alice 2).
  vm_compute. reflexivity.
Defined.

(** X6. [isValidPublicKey] knows compressed keys only: it rejects the
    65-byte uncompressed encoding of any point, although [computeECDH]
    returns a secret for that encoding and a well-formed private key. *)
Theorem isValidPublicKey_rejects_uncompressed (L : Lib) (HL : LibLaws L)
    (privateKey : string) (k : N) (P : point) :
  String.length (with_0x privateKey) = 66 ->
  normPrivateKeyToScalar (hexToUint8Array privateKey) = Ok k ->
  isValidPublicKey (uint8ArrayToHex (toRawBytes false P)) = false
  /\ isValidPublicKey (uint8ArrayToHex (toRawBytes true P)) = true
  /\ exists secret,
       computeECDH privateKey (uint8ArrayToHex (toRawBytes false P)) = Ok secret.
Proof.
  intros Hlen Hk. split; [| split].
  - destruct (isValidPublicKey (uint8ArrayToHex (toRawBytes false P))) eqn:E;
      [| reflexivity].
    apply isValidPublicKey_spec in E. cbv zeta in E.
    rewrite uint8ArrayToHex_startsWith, uint8ArrayToHex_unfold, slice_from_0x in E.
    destruct E as [E _]. rewrite join_hex2_length, (toRawBytes_length HL) in E.
    discriminate E.
  - apply canonical_hex_bytes_valid_key.
    rewrite <- (toRawBytes_length HL true P). apply uint8ArrayToHex_canonical_bytes.
  - destruct (computeECDH_scalar_ok HL privateKey k false P Hlen Hk) as (secret & _ & Hs).
    now exists secret.
Qed.

Lemma isValidPublicKey_rejects_uncompressed_witness :
  isValidPublicKey
    "0x0400000000000000000000000000000000000000000000000000000000000000b80000000000000000000000000000000000000000000000000000000000000000"
  = false
  /\ isValidPublicKey
       "0x0200000000000000000000000000000000000000000000000000000000000000b8" = true
  /\ exists secret,
       computeECDH (L := Model.lib) (StealthKeys.viewingPrivateKey Model.alice)
         "0x0400000000000000000000000000000000000000000000000000000000000000b80000000000000000000000000000000000000000000000000000000000000000"
       = Ok secret.
Proof.
  apply (isValidPublicKey_rejects_uncompressed Model.lib model_laws
           (StealthKeys.viewingPrivateKey Model.alice) 11 xb8);
    vm_compute; reflexivity.
Defined.

(** X7. Addresses and [isValidStealthAddress]: the address of a generated
    [StealthAddress] passes it, and so does, once lowercased, every address
    the scanner returns (the scanner hands back the stored string, whose
    [0X] or digits may be in capitals). *)
Theorem addresses_are_well_formed (L : Lib) (HL : LibLaws L) :
  (forall viewingPublicKey sp eph st S st2,
      generateStealthAddress viewingPublicKey sp eph st = (Ok S, st2) ->
      isValidStealthAddress (StealthAddress.address S) = true)
  /\ (forall viewingPrivateKey viewingPublicKey metas res found,
         scanStealthAddresses viewingPrivateKey viewingPublicKey metas = Ok res ->
         In found res ->
         isValidStealthAddress (Js.toLowerCase (StealthAddress.address found)) = true).
Proof.
  split.
  - intros v sp eph st S st2 HS.
    apply generateStealthAddress_inv in HS as (ek & ss & key & _ & _ & _ & Hacc & _).
    destruct (stealth_account_address HL _ _ _ _ Hacc) as [Ha _].
    apply isValidStealthAddress_spec. exact (address_shape HL _ _ Ha).
  - intros vp vpub metas res found Hscan Hin.
    destruct (scan_found _ _ _ _ _ Hscan Hin) as (meta & _ & Hrec).
    apply scan_record_inv in Hrec
      as (claimed & eph & tag & ss & key & derived & _ & _ & _ & _ & _ & Hacc & Heq & ->).
    destruct (stealth_account_address HL _ _ _ _ Hacc) as [Ha _].
    cbn [StealthAddress.address]. rewrite <- Heq.
    apply isValidStealthAddress_spec, is_address_toLowerCase.
    exact (address_shape HL _ _ Ha).
Qed.

Lemma addresses_are_well_formed_witness :
  isValidStealthAddress
    (Js.toLowerCase "0X135f3b4473ca5c66edc815d1ede4a59c9034f81d") = true.
Proof.
  apply (proj2 (addresses_are_well_formed Model.lib model_laws)
           (StealthKeys.viewingPrivateKey Model.alice)
           (StealthKeys.viewingPublicKey Model.alice)
           [Model.record_recased]
           [StealthAddress.make
              "0X135f3b4473ca5c66edc815d1ede4a59c9034f81d"
              "0x0200000000000000000000000000000000000000000000000000000000000000b8"
              "0X87"]
           (StealthAddress.make
              "0X135f3b4473ca5c66edc815d1ede4a59c9034f81d"
              "0x0200000000000000000000000000000000000000000000000000000000000000b8"
              "0X87")).
  - vm_compute. reflexivity.
  - left. reflexivity.
Defined.

(** X8. The scanner is a filter: with an empty viewing key it throws
    "Missing viewing keys", whatever the records; otherwise it returns, in
    the order of the input, what it echoes of exactly the records for which
    the loop body reaches the push. *)
Theorem scanStealthAddresses_is_filter (L : Lib)
    (viewingPrivateKey viewingPublicKey : string) (metas : list StealthMetadata.t) :
  scanStealthAddresses viewingPrivateKey viewingPublicKey metas
  = if (Js.falsy viewingPrivateKey || Js.falsy viewingPublicKey)%bool
    then Throw (Error "Missing viewing keys")
    else Ok (map echoed
               (filter (discovers (with_0x viewingPrivateKey) (with_0x viewingPublicKey))
                  metas)).
Proof.
  destruct (Js.falsy viewingPrivateKey) eqn:F1.
  - unfold scanStealthAddresses. now rewrite F1.
  - destruct (Js.falsy viewingPublicKey) eqn:F2.
    + unfold scanStealthAddresses. now rewrite F1, F2.
    + rewrite scanStealthAddresses_flat_map by assumption.
      cbn [orb]. now rewrite flat_map_scan_one.
Qed.

(** X9. Scanning composes: the result for two lists put end to end is the
    result for the first followed by the result for the second; there are
    never more results than records; and records with a missing field can
    be dropped from the input without changing the result. *)
Theorem scan_composes (L : Lib)
    (viewingPrivateKey viewingPublicKey : string)
    (metas1 metas2 : list StealthMetadata.t) (res1 res2 : list StealthAddress.t) :
  scanStealthAddresses viewingPrivateKey viewingPublicKey metas1 = Ok res1 ->
  scanStealthAddresses viewingPrivateKey viewingPublicKey metas2 = Ok res2 ->
  scanStealthAddresses viewingPrivateKey viewingPublicKey (metas1 ++ metas2)%list
  = Ok (res1 ++ res2)%list
  /\ List.length res1 <= List.length metas1
  /\ scanStealthAddresses viewingPrivateKey viewingPublicKey
       (filter (fun meta =>
                  negb (Js.missing (StealthMetadata.stealthAddress meta)
                        || Js.missing (StealthMetadata.ephemeralPublicKey meta)
                        || Js.missing (StealthMetadata.viewTag meta)))
          metas1)
     = Ok res1.
Proof.
  intros H1 H2.
  destruct (scanStealthAddresses_keys_present _ _ _ _ H1) as [F1 F2].
  rewrite scanStealthAddresses_flat_map in H1, H2 |- * by assumption.
  apply Ok_inj in H1, H2. subst res1 res2.
  split; [now rewrite flat_map_app |]. split.
  - rewrite flat_map_scan_one, length_map. apply filter_length_le.
  - rewrite scanStealthAddresses_flat_map by assumption. f_equal.
    induction metas1 as [|m metas IH]; [reflexivity |].
    cbn [filter flat_map].
    destruct (Js.missing (StealthMetadata.stealthAddress m)
              || Js.missing (StealthMetadata.ephemeralPublicKey m)
              || Js.missing (StealthMetadata.viewTag m))%bool eqn:E; cbn [negb].
    + unfold scan_one at 2. rewrite (scan_record_missing _ _ _ E). exact IH.
    + cbn [flat_map]. now rewrite IH.
Qed.

Lemma scan_composes_witness :
  scanStealthAddresses (L := Model.lib)
    (StealthKeys.viewingPrivateKey Model.alice) (StealthKeys.viewingPublicKey Model.alice)
    ([Model.record_without_key; Model.record_recased]
       ++ [createStealthMetadata Model.payment "eth" 0])%list
  = Ok ([echoed Model.record_recased] ++ [Model.payment])%list
  /\ List.length [echoed Model.record_recased]
     <= List.length [Model.record_without_key; Model.record_recased]
  /\ scanStealthAddresses (L := Model.lib)
       (StealthKeys.viewingPrivateKey Model.alice)
       (StealthKeys.viewingPublicKey Model.alice)
       (filter (fun meta =>
                  negb (Js.missing (StealthMetadata.stealthAddress meta)
                        || Js.missing (StealthMetadata.ephemeralPublicKey meta)
                        || Js.missing (StealthMetadata.viewTag meta)))
          [Model.record_without_key; Model.record_recased])
     = Ok [echoed Model.record_recased].
Proof.
  apply (scan_composes Model.lib
           (StealthKeys.viewingPrivateKey Model.alice)
           (StealthKeys.viewingPublicKey Model.alice)
           [Model.record_without_key; Model.record_recased]
           [createStealthMetadata Model.payment "eth" 0]
           [echoed Model.record_recased] [Model.payment]).
  - vm_compute. reflexivity.
  - vm_compute. reflexivity.
Defined.

(** X10. The [0x] prefix of a key is optional: [computeECDH] and
    [scanStealthAddresses] give the same outcome for non-empty keys with and
    without their prefix, and [generateStealthAddress] for any viewing
    public key. *)
Theorem key_prefix_is_optional (L : Lib) :
  (forall privateKey publicKey,
      privateKey <> EmptyString -> publicKey <> EmptyString ->
      computeECDH (with_0x privateKey) (with_0x publicKey)
      = computeECDH privateKey publicKey)
  /\ (forall viewingPrivateKey viewingPublicKey metas,
         viewingPrivateKey <> EmptyString -> viewingPublicKey <> EmptyString ->
         scanStealthAddresses (with_0x viewingPrivateKey) (with_0x viewingPublicKey) metas
         = scanStealthAddresses viewingPrivateKey viewingPublicKey metas)
  /\ (forall viewingPublicKey sp eph st,
         generateStealthAddress (with_0x viewingPublicKey) sp eph st
         = generateStealthAddress viewingPublicKey sp eph st).
Proof.
  assert (Hf : forall s, s <> EmptyString -> Js.falsy s = false).
  { intros s Hs. destruct (Js.falsy s) eqn:E; [| reflexivity].
    now apply falsy_true in E. }
  split; [| split].
  - intros a b Ha Hb. apply computeECDH_with_0x; auto.
  - intros vp vpub metas Hp Hb. unfold scanStealthAddresses.
    now rewrite !falsy_with_0x, !with_0x_idem, (Hf _ Hp), (Hf _ Hb).
  - intros v sp eph st. unfold generateStealthAddress. now rewrite !with_0x_idem.
Qed.

Lemma key_prefix_is_optional_witness :
  computeECDH (L := Model.lib)
    (with_0x "000000000000000000000000000000000000000000000000000000000000000b")
    (with_0x "02000000000000000000000000000000000000000000000000000000000000003f")
  = computeECDH (L := Model.lib)
      "000000000000000000000000000000000000000000000000000000000000000b"
      "02000000000000000000000000000000000000000000000000000000000000003f".
Proof.
  apply (proj1 (key_prefix_is_optional Model.lib)); discriminate.
Defined.

(** X11. Stored casing and prefixes do not decide a match: two records
    with the same ephemeral key up to its [0x], addresses equal up to case
    and view tags equal up to case and [0x] are either both discovered or
    both passed over. *)
Theorem scan_ignores_case_and_prefix (L : Lib) (viewingPriv viewingPub : string)
    (meta1 meta2 : StealthMetadata.t)
    (claimed1 claimed2 eph1 eph2 tag1 tag2 : string) :
  StealthMetadata.stealthAddress meta1 = Some claimed1 -> claimed1 <> EmptyString ->
  StealthMetadata.ephemeralPublicKey meta1 = Some eph1 -> eph1 <> EmptyString ->
  StealthMetadata.viewTag meta1 = Some tag1 -> tag1 <> EmptyString ->
  StealthMetadata.stealthAddress meta2 = Some claimed2 -> claimed2 <> EmptyString ->
  StealthMetadata.ephemeralPublicKey meta2 = Some eph2 -> eph2 <> EmptyString ->
  StealthMetadata.viewTag meta2 = Some tag2 -> tag2 <> EmptyString ->
  Js.toLowerCase claimed1 = Js.toLowerCase claimed2 ->
  with_0x eph1 = with_0x eph2 ->
  Js.strip_0x (Js.toLowerCase tag1) = Js.strip_0x (Js.toLowerCase tag2) ->
  discovers viewingPriv viewingPub meta1 = discovers viewingPriv viewingPub meta2.
Proof.
  intros A1 NA1 E1 NE1 T1 NT1 A2 NA2 E2 NE2 T2 NT2 Ha He Ht.
  rewrite (discovers_present viewingPriv viewingPub meta1 claimed1 eph1 tag1) by assumption.
  rewrite (discovers_present viewingPriv viewingPub meta2 claimed2 eph2 tag2) by assumption.
  now rewrite Ha, He, Ht.
Qed.

Lemma scan_ignores_case_and_prefix_witness :
  discovers (L := Model.lib)
    (StealthKeys.viewingPrivateKey Model.alice) (StealthKeys.viewingPublicKey Model.alice)
    (createStealthMetadata Model.payment "eth" 0)
  = discovers (L := Model.lib)
      (StealthKeys.viewingPrivateKey Model.alice) (StealthKeys.viewingPublicKey Model.alice)
      Model.record_recased.
Proof.
  apply (scan_ignores_case_and_prefix Model.lib
           (StealthKeys.viewingPrivateKey Model.alice)
           (StealthKeys.viewingPublicKey Model.alice)
           (createStealthMetadata Model.payment "eth" 0) Model.record_recased
           "0x135F3B4473CA5C66EDC815D1EDE4A59C9034F81D"
           "0X135f3b4473ca5c66edc815d1ede4a59c9034f81d"
           "0x0200000000000000000000000000000000000000000000000000000000000000b8"
           "0200000000000000000000000000000000000000000000000000000000000000b8"
           "87" "0X87");
    first [reflexivity | discriminate].
Defined.

(** X12. Generation/recovery round trip: for receiver keys [K] from
    [generateStealthKeys] and an address [S] generated for [K]'s viewing
    public key there is one key that [deriveStealthSpendingKey] returns
    with [K]'s viewing private key, [S]'s address and ephemeral key, for
    every value passed as spending private key and whether the viewing
    public key is passed or left out; the account of that key has the
    address of [S], and the key is 32 bytes of lowercase hex. *)
Theorem generation_recovery_roundtrip (L : Lib) (HL : LibLaws L)
    (st : nat) (K : StealthKeys.t) (st1 : nat)
    (sp eph : option string) (st' : nat) (S : StealthAddress.t) (st2 : nat) :
  generateStealthKeys st = (Ok K, st1) ->
  generateStealthAddress (StealthKeys.viewingPublicKey K) sp eph st' = (Ok S, st2) ->
  exists key,
    (forall spendingPrivateKey,
        deriveStealthSpendingKey spendingPrivateKey (StealthKeys.viewingPrivateKey K)
          (StealthAddress.address S) (StealthAddress.ephemeralPublicKey S)
          (Some (StealthKeys.viewingPublicKey K)) = Ok key
        /\ deriveStealthSpendingKey spendingPrivateKey (StealthKeys.viewingPrivateKey K)
             (StealthAddress.address S) (StealthAddress.ephemeralPublicKey S) None
           = Ok key)
    /\ privateKeyToAccount key = Ok (StealthAddress.address S)
    /\ canonical_hex_bytes 32 key = true.
Proof.
  intros HK HS.
  destruct (receiver_side HL st K st1 sp eph st' S st2 HK HS) as (ss & key & Hss & Hacc & Hne).
  destruct (stealth_account_address HL _ _ _ _ Hacc) as [Ha Hk].
  apply generateStealthKeys_inv in HK as (_ & _ & _ & Hvpub).
  assert (Hf : Js.falsy (StealthKeys.viewingPublicKey K) = false).
  { destruct (Js.falsy (StealthKeys.viewingPublicKey K)) eqn:E; [| reflexivity].
    now apply falsy_true in E. }
  exists key. split; [| split; assumption].
  intros spendingPrivateKey. split.
  - rewrite (deriveStealthSpendingKey_checked spendingPrivateKey
               (StealthKeys.viewingPrivateKey K) (StealthAddress.address S)
               (StealthAddress.ephemeralPublicKey S)
               (Some (StealthKeys.viewingPublicKey K)) ss
               (StealthKeys.viewingPublicKey K) key (StealthAddress.address S) Hss).
    + now rewrite String.eqb_refl.
    + cbn [Js.missing Js.or_default]. now rewrite Hf.
    + exact Hacc.
  - rewrite (deriveStealthSpendingKey_checked spendingPrivateKey
               (StealthKeys.viewingPrivateKey K) (StealthAddress.address S)
               (StealthAddress.ephemeralPublicKey S) None ss
               (StealthKeys.viewingPublicKey K) key (StealthAddress.address S) Hss).
    + now rewrite String.eqb_refl.
    + exact Hvpub.
    + exact Hacc.
Qed.

Lemma generation_recovery_roundtrip_witness :
  exists key,
    (forall spendingPrivateKey,
        deriveStealthSpendingKey (L := Model.lib) spendingPrivateKey
          (StealthKeys.viewingPrivateKey Model.alice)
          (StealthAddress.address Model.payment)
          (StealthAddress.ephemeralPublicKey Model.payment)
          (Some (StealthKeys.viewingPublicKey Model.alice)) = Ok key
        /\ deriveStealthSpendingKey (L := Model.lib) spendingPrivateKey
             (StealthKeys.viewingPrivateKey Model.alice)
             (StealthAddress.address Model.payment)
             (StealthAddress.ephemeralPublicKey Model.payment) None = Ok key)
    /\ @privateKeyToAccount Model.lib key = Ok (StealthAddress.address Model.payment)
    /\ canonical_hex_bytes 32 key = true.
Proof.
  apply (generation_recovery_roundtrip Model.lib model_laws
           0 Model.alice 2 None None 2 Model.payment 3).
  - vm_compute. reflexivity.
  - vm_compute. reflexivity.
Defined.

(** X13. The optional viewing public key of [deriveStealthSpendingKey]:
    leaving it out, or passing the empty string, gives the same outcome as
    passing the key [derivePublicKey] derives from the viewing private key. *)
Theorem recovery_default_viewing_key (L : Lib)
    (spendingPrivateKey viewingPrivateKey stealthAddress ephemeralPublicKey pub : string) :
  derivePublicKey viewingPrivateKey = Ok pub ->
  deriveStealthSpendingKey spendingPrivateKey viewingPrivateKey stealthAddress
    ephemeralPublicKey None
  = deriveStealthSpendingKey spendingPrivateKey viewingPrivateKey stealthAddress
      ephemeralPublicKey (Some pub)
  /\ deriveStealthSpendingKey spendingPrivateKey viewingPrivateKey stealthAddress
       ephemeralPublicKey (Some EmptyString)
     = deriveStealthSpendingKey spendingPrivateKey viewingPrivateKey stealthAddress
         ephemeralPublicKey (Some pub).
Proof.
  intros Hpub.
  assert (Hf : Js.falsy pub = false).
  { apply derivePublicKey_inv in Hpub as (k & _ & ->).
    exact (falsy_false_of_startsWith _ (uint8ArrayToHex_startsWith _)). }
  unfold deriveStealthSpendingKey. cbn [Js.missing Js.or_default].
  rewrite Hf, Hpub. split; reflexivity.
Qed.

Lemma recovery_default_viewing_key_witness :
  deriveStealthSpendingKey (L := Model.lib)
    (StealthKeys.spendingPrivateKey Model.alice) (StealthKeys.viewingPrivateKey Model.alice)
    (StealthAddress.address Model.payment)
    (StealthAddress.ephemeralPublicKey Model.payment) None
  = deriveStealthSpendingKey (L := Model.lib)
      (StealthKeys.spendingPrivateKey Model.alice) (StealthKeys.viewingPrivateKey Model.alice)
      (StealthAddress.address Model.payment)
      (StealthAddress.ephemeralPublicKey Model.payment)
      (Some (StealthKeys.viewingPublicKey Model.alice)).
Proof.
  refine (proj1 (recovery_default_viewing_key Model.lib
                   (StealthKeys.spendingPrivateKey Model.alice)
                   (StealthKeys.viewingPrivateKey Model.alice)
                   (StealthAddress.address Model.payment)
                   (StealthAddress.ephemeralPublicKey Model.payment)
                   (StealthKeys.viewingPublicKey Model.alice) _)).
  vm_compute. reflexivity.
Defined.

(** X14. The only randomness of [generateStealthAddress] is the ephemeral
    key.  With a badly sized viewing public key it throws "Invalid
    viewingPublicKey format" and draws nothing.  With a non-empty ephemeral
    private key it draws nothing and its outcome does not depend on the
    random source's position.  Without one (or with the empty string) it
    draws exactly one private key and then behaves as if that key had been
    passed. *)
Theorem ephemeral_key_is_the_only_randomness (L : Lib)
    (viewingPublicKey : string) (sp : option string) (st : nat) :
  (String.length (with_0x viewingPublicKey) <> 68 ->
   String.length (with_0x viewingPublicKey) <> 132 ->
   forall eph,
     generateStealthAddress viewingPublicKey sp eph st
     = (Throw (Error "Invalid viewingPublicKey format"), st))
  /\ (forall e st',
         e <> EmptyString ->
         generateStealthAddress viewingPublicKey sp (Some e) st
         = (fst (generateStealthAddress viewingPublicKey sp (Some e) st'), st))
  /\ (String.length (with_0x viewingPublicKey) = 68
      \/ String.length (with_0x viewingPublicKey) = 132 ->
      random_private_key st <> EmptyString ->
      generateStealthAddress viewingPublicKey sp None st
      = (fst (generateStealthAddress viewingPublicKey sp
                (Some (random_private_key st)) st),
         S st))
  /\ generateStealthAddress viewingPublicKey sp (Some EmptyString) st
     = generateStealthAddress viewingPublicKey sp None st.
Proof.
  pose proof (with_0x_length viewingPublicKey) as Hge.
  assert (Hf : forall s, s <> EmptyString -> Js.falsy s = false).
  { intros s Hs. destruct (Js.falsy s) eqn:E; [| reflexivity].
    now apply falsy_true in E. }
  split; [| split; [| split]].
  - intros H68 H132 eph. unfold generateStealthAddress.
    assert (H1 : Nat.eqb (String.length (with_0x viewingPublicKey) - 2) 66 = false)
      by (apply Nat.eqb_neq; lia).
    assert (H2 : Nat.eqb (String.length (with_0x viewingPublicKey) - 2) 130 = false)
      by (apply Nat.eqb_neq; lia).
    now rewrite H1, H2.
  - intros e st' He. unfold generateStealthAddress.
    cbn [Js.missing Js.or_default]. rewrite (Hf e He).
    now destruct (negb _ && negb _)%bool.
  - intros Hlen Hr. unfold generateStealthAddress, generatePrivateKey.
    cbn [Js.missing Js.or_default]. rewrite (Hf _ Hr).
    assert (Hc : (negb (Nat.eqb (String.length (with_0x viewingPublicKey) - 2) 66)
                  && negb (Nat.eqb (String.length (with_0x viewingPublicKey) - 2) 130))%bool
                 = false).
    { destruct Hlen as [-> | ->]; reflexivity. }
    now rewrite Hc.
  - reflexivity.
Qed.

Lemma ephemeral_key_is_the_only_randomness_witness :
  generateStealthAddress (L := Model.lib) (StealthKeys.viewingPublicKey Model.alice)
    None None 2
  = (fst (generateStealthAddress (L := Model.lib) (StealthKeys.viewingPublicKey Model.alice)
            None (Some (@random_private_key Model.lib 2)) 2),
     3).
Proof.
  apply (proj1 (proj2 (proj2 (ephemeral_key_is_the_only_randomness Model.lib
                                (StealthKeys.viewingPublicKey Model.alice) None 2)))).
  - left. reflexivity.
  - vm_compute. discriminate.
Defined.

(** X15. The two outcomes of [computeECDH]: a returned secret is 32 bytes
    of lowercase hex with [0x], and was computed for a private key of 66
    characters and a public key of 68 or 132 characters, prefix included;
    a thrown error always carries the message "ECDH computation failed: "
    followed by the text of what went wrong, also when a key is empty. *)
Theorem computeECDH_outcomes (L : Lib) (HL : LibLaws L) (privateKey publicKey : string) :
  (forall secret,
      computeECDH privateKey publicKey = Ok secret ->
      canonical_hex_bytes 32 secret = true
      /\ String.length (with_0x privateKey) = 66
      /\ (String.length (with_0x publicKey) = 68
          \/ String.length (with_0x publicKey) = 132))
  /\ (forall e,
         computeECDH privateKey publicKey = Throw e ->
         exists inner,
           e = Error ("ECDH computation failed: " ++ inner)
           /\ error_kind e = Some SharedSecretComputationFailed)
  /\ (privateKey = EmptyString \/ publicKey = EmptyString ->
      computeECDH privateKey publicKey
      = Throw (Error "ECDH computation failed: Missing private or public key")).
Proof.
  split; [| split].
  - intros secret H. split; [exact (computeECDH_shape HL _ _ _ H) |].
    unfold computeECDH in H. apply try_catch_ok_inv in H; [| discriminate].
    destruct (Js.falsy privateKey || Js.falsy publicKey)%bool; [discriminate H |].
    destruct (Nat.eqb (String.length (with_0x privateKey)) 66) eqn:E1;
      [| discriminate H].
    apply Nat.eqb_eq in E1. split; [exact E1 |].
    pose proof (with_0x_length publicKey) as Hge.
    destruct (Nat.eqb (String.length (with_0x publicKey) - 2) 66) eqn:E2.
    + apply Nat.eqb_eq in E2. left. lia.
    + destruct (Nat.eqb (String.length (with_0x publicKey) - 2) 130) eqn:E3;
        [| discriminate H].
      apply Nat.eqb_eq in E3. right. lia.
  - intros e H. unfold computeECDH, try_catch in H.
    match type of H with
    | match ?body with _ => _ end = _ => destruct body as [x|e0]; [discriminate H |]
    end.
    apply Throw_inj in H. subst e. exists (error_text e0). split; reflexivity.
  - intros [-> | ->]; unfold computeECDH.
    + reflexivity.
    + destruct (Js.falsy privateKey); reflexivity.
Qed.

Lemma computeECDH_outcomes_witness :
  canonical_hex_bytes 32 Model.payment_secret = true
  /\ String.length (with_0x (StealthKeys.viewingPrivateKey Model.alice)) = 66
  /\ (String.length (with_0x (StealthAddress.ephemeralPublicKey Model.payment)) = 68
      \/ String.length (with_0x (StealthAddress.ephemeralPublicKey Model.payment)) = 132).
Proof.
  apply (proj1 (computeECDH_outcomes Model.lib model_laws
                  (StealthKeys.viewingPrivateKey Model.alice)
                  (StealthAddress.ephemeralPublicKey Model.payment))
           Model.payment_secret).
  vm_compute. reflexivity.
Defined.

(** X16. Every address the scanner returns passed the view-tag check: the
    stored tag of its record, lowercased and without [0x], is the first
    byte, in hex, of the secret computed from the viewing private key and
    the returned ephemeral public key. *)
Theorem scan_results_passed_view_tag (L : Lib)
    (viewingPrivateKey viewingPublicKey : string)
    (metas : list StealthMetadata.t) (res : list StealthAddress.t)
    (found : StealthAddress.t) :
  scanStealthAddresses viewingPrivateKey viewingPublicKey metas = Ok res ->
  In found res ->
  exists sharedSecret,
    computeECDH (with_0x viewingPrivateKey) (StealthAddress.ephemeralPublicKey found)
    = Ok sharedSecret
    /\ Js.strip_0x (Js.toLowerCase (StealthAddress.viewTag found))
       = Js.toLowerCase (Js.slice 2 4 sharedSecret).
Proof.
  intros Hscan Hin.
  destruct (scan_found _ _ _ _ _ Hscan Hin) as (meta & _ & Hrec).
  apply scan_record_inv in Hrec
    as (claimed & eph & tag & ss & key & derived & _ & _ & _ & Hss & Htag & _ & _ & ->).
  exists ss. cbn [StealthAddress.ephemeralPublicKey StealthAddress.viewTag].
  split; [exact Hss | now symmetry].
Qed.

Lemma scan_results_passed_view_tag_witness :
  exists sharedSecret,
    computeECDH (L := Model.lib) (with_0x (StealthKeys.viewingPrivateKey Model.alice))
      "0x0200000000000000000000000000000000000000000000000000000000000000b8"
    = Ok sharedSecret
    /\ Js.strip_0x (Js.toLowerCase "0X87") = Js.toLowerCase (Js.slice 2 4 sharedSecret).
Proof.
  apply (scan_results_passed_view_tag Model.lib
           (StealthKeys.viewingPrivateKey Model.alice)
           (StealthKeys.viewingPublicKey Model.alice)
           [Model.record_recased]
           [echoed Model.record_recased] (echoed Model.record_recased)).
  - vm_compute. reflexivity.
  - left. reflexivity.
Defined.



(** X18. The demo script runs to its last line: once the two generation
    steps have succeeded, [runDemo] prints the keys, the address, "Found 1
    address(es)!", the discovered address and the derived spending key,
    whose account has the generated address, and ends with "Success! ...".
    Whatever the libraries answer, it never prints "Failed to discover
    address!". *)
Theorem demo_runs_to_success (L : Lib) (HL : LibLaws L) (now : Z) (st : nat) :
  (forall K st1 S st2,
      generateStealthKeys st = (Ok K, st1) ->
      generateStealthAddress (StealthKeys.viewingPublicKey K)
        (Some (StealthKeys.spendingPublicKey K)) None st1 = (Ok S, st2) ->
      exists spendingKey,
        privateKeyToAccount spendingKey = Ok (StealthAddress.address S)
        /\ runDemo now st
           = ([Log ("=== Stealth SDK Demo ===" ++ String (ascii_of_nat 10) EmptyString);
               Log "1. Alice generates stealth keys...";
               Log ("Alice's Viewing Public Key: " ++ StealthKeys.viewingPublicKey K);
               Log ("Alice's Spending Public Key: " ++ StealthKeys.spendingPublicKey K);
               Log EmptyString;
               Log "2. Bob generates stealth address for Alice...";
               Log ("Stealth Address: " ++ StealthAddress.address S);
               Log ("Ephemeral Public Key: " ++ StealthAddress.ephemeralPublicKey S);
               Log ("View Tag: " ++ StealthAddress.viewTag S);
               Log EmptyString;
               Log "3. Alice scans for her addresses...";
               Log "Found 1 address(es)!";
               Log ("Discovered Address: " ++ StealthAddress.address S);
               Log "4. Alice derives spending key...";
               Log ("Derived Spending Key: " ++ spendingKey);
               Log "Success! Alice can now spend funds from this address."],
              st2))
  /\ ~ In (LogError "Failed to discover address!") (fst (runDemo now st)).
Proof.
  assert (Hrun : forall K st1 S st2,
             generateStealthKeys st = (Ok K, st1) ->
             generateStealthAddress (StealthKeys.viewingPublicKey K)
               (Some (StealthKeys.spendingPublicKey K)) None st1 = (Ok S, st2) ->
             scanStealthAddresses (StealthKeys.viewingPrivateKey K)
               (StealthKeys.viewingPublicKey K) [createStealthMetadata S "eth" now]
             = Ok [S]).
  { intros K st1 S st2 HK HS.
    destruct (generated_keys_present HL st K st1 HK) as [F1 F2].
    rewrite scanStealthAddresses_flat_map by assumption. f_equal.
    apply (scan_payments HL st K st1 "eth" now [S] HK).
    constructor; [| constructor]. now exists (Some (StealthKeys.spendingPublicKey K)), None, st1, st2. }
  split.
  - intros K st1 S st2 HK HS.
    destruct (receiver_side HL st K st1 _ _ st1 S st2 HK HS) as (ss & key & Hss & Hacc & Hne).
    destruct (stealth_account_address HL _ _ _ _ Hacc) as [Ha _].
    exists key. split; [exact Ha |].
    unfold runDemo. rewrite HK, HS, (Hrun K st1 S st2 HK HS).
    rewrite (deriveStealthSpendingKey_checked
               (StealthKeys.spendingPrivateKey K) (StealthKeys.viewingPrivateKey K)
               (StealthAddress.address S) (StealthAddress.ephemeralPublicKey S)
               (Some (StealthKeys.viewingPublicKey K)) ss
               (StealthKeys.viewingPublicKey K) key (StealthAddress.address S) Hss).
    + rewrite String.eqb_refl. reflexivity.
    + cbn [Js.missing Js.or_default].
      destruct (Js.falsy (StealthKeys.viewingPublicKey K)) eqn:E; [| reflexivity].
      now apply falsy_true in E.
    + exact Hacc.
  - unfold runDemo.
    destruct (generateStealthKeys st) as [[K|e] st1] eqn:HK.
    2: { cbn. intuition discriminate. }
    destruct (generateStealthAddress (StealthKeys.viewingPublicKey K)
                (Some (StealthKeys.spendingPublicKey K)) None st1) as [[S|e] st2] eqn:HS.
    2: { cbn. intuition discriminate. }
    rewrite (Hrun K st1 S st2 eq_refl HS).
    destruct (deriveStealthSpendingKey _ _ _ _ _); cbn; intuition discriminate.
Qed.

Lemma demo_runs_to_success_witness :
  exists spendingKey,
    @privateKeyToAccount Model.lib spendingKey = Ok (StealthAddress.address Model.payment)
    /\ runDemo (L := Model.lib) 0 0
       = ([Log ("=== Stealth SDK Demo ===" ++ String (ascii_of_nat 10) EmptyString);
           Log "1. Alice generates stealth keys...";
           Log ("Alice's Viewing Public Key: " ++ StealthKeys.viewingPublicKey Model.alice);
           Log ("Alice's Spending Public Key: "
                  ++ StealthKeys.spendingPublicKey Model.alice);
           Log EmptyString;
           Log "2. Bob generates stealth address for Alice...";
           Log ("Stealth Address: " ++ StealthAddress.address Model.payment);
           Log ("Ephemeral Public Key: "
                  ++ StealthAddress.ephemeralPublicKey Model.payment);
           Log ("View Tag: " ++ StealthAddress.viewTag Model.payment);
           Log EmptyString;
           Log "3. Alice scans for her addresses...";
           Log "Found 1 address(es)!";
           Log ("Discovered Address: " ++ StealthAddress.address Model.payment);
           Log "4. Alice derives spending key...";
           Log ("Derived Spending Key: " ++ spendingKey);
           Log "Success! Alice can now spend funds from this address."],
          3).
Proof.
  apply (proj1 (demo_runs_to_success Model.lib model_laws 0 0) Model.alice 2 Model.payment 3).
  - vm_compute. reflexivity.
  - vm_compute. reflexivity.
Defined.

(** X19. [hexToUint8Array] does not validate: a string, without [0x], in
    which no character is a hex digit, white space or a sign is not
    rejected but read as zero bytes, one for every two characters. *)
Theorem hexToUint8Array_reads_junk_as_zeros (hex : string) :
  all_chars not_numeric hex = true ->
  hexToUint8Array hex = repeat x00 (String.length hex / 2).
Proof.
  intros Hall.
  assert (Hp : Js.startsWith "0x" hex = false).
  { destruct (Js.startsWith "0x" hex) eqn:E; [| reflexivity].
    apply startsWith_0x_inv in E as [t ->]. discriminate Hall. }
  rewrite hexToUint8Array_decode, Hp. clear Hp.
  induction hex as [| a | a b r IH] using string_pair_ind.
  - reflexivity.
  - reflexivity.
  - cbn [all_chars] in Hall.
    apply andb_prop in Hall as [Ha Hall]. apply andb_prop in Hall as [_ Hall].
    cbn [decode_pairs String.length].
    change (S (S (String.length r))) with (1 * 2 + String.length r).
    rewrite Nat.div_add_l by discriminate. cbn [Nat.add repeat].
    now rewrite parseInt16_not_numeric, IH.
Qed.

Lemma hexToUint8Array_reads_junk_as_zeros_witness :
  hexToUint8Array "unknown!" = repeat x00 (String.length "unknown!" / 2).
Proof.
  apply (hexToUint8Array_reads_junk_as_zeros "unknown!"). reflexivity.
Defined.

(** X20. The codec and concatenation: the hex string of two byte arrays
    put end to end is the string of the first followed by the digits of the
    second, and a hex string cut at an even position decodes to the bytes
    of its two parts put end to end. *)
Theorem hex_codec_concatenation :
  (forall bytes1 bytes2,
      uint8ArrayToHex (bytes1 ++ bytes2)
      = uint8ArrayToHex bytes1 ++ Js.slice_from 2 (uint8ArrayToHex bytes2))
  /\ (forall s t,
         Nat.even (String.length s) = true ->
         hexToUint8Array ("0x" ++ s ++ t)
         = (hexToUint8Array ("0x" ++ s) ++ hexToUint8Array ("0x" ++ t))%list).
Proof.
  split.
  - intros bytes1 bytes2.
    rewrite !uint8ArrayToHex_unfold, slice_from_0x, join_hex2_app. reflexivity.
  - intros s t Heven.
    rewrite !hexToUint8Array_decode, !startsWith_0x, !slice_from_0x.
    now apply decode_pairs_app.
Qed.

Lemma hex_codec_concatenation_witness :
  hexToUint8Array ("0x" ++ "01ff" ++ "a0")
  = (hexToUint8Array ("0x" ++ "01ff") ++ hexToUint8Array ("0x" ++ "a0"))%list.
Proof.
  apply (proj2 hex_codec_concatenation "01ff" "a0"). reflexivity.
Defined.
